(** * gridmetetl: the weighted spatial aggregation of [FpoNHM.run_weights]

    A shallow embedding of [gridmetetl/helper.py] and of the aggregation part
    of [gridmetetl/etl.py], and the properties of it that the specification
    states.

    Numbers.  A numpy [float64] is modelled in two ways.

    In the model of the whole run it is an [f8]: NaN, the two infinities,
    or a finite value.  Finite values are exact rationals ([Qc], rationals in
    lowest terms, so that equal numbers are equal terms): rounding and
    overflow are not modelled and zero carries no sign.  The special values
    follow IEEE 754.  This model carries the properties of structure: which
    branch is taken, which exception ends a call, what is stored where, where
    NaN goes.

    What depends on the value that an operation rounds to is stated over
    [Binary64], the model of [getaverage] on IEEE 754 binary64 numbers, in
    which every sum, product and quotient is rounded as the machine rounds
    it and the sums are taken in the order in which numpy takes them. *)

From Stdlib Require Import String List Bool Arith ZArith QArith Qcanon.
From Stdlib Require Import Permutation Lia.
From Stdlib Require Floats.
Import ListNotations.

Open Scope string_scope.
Open Scope Qc_scope.

(* ================================================================== *)
(** ** float64 *)

Inductive f8 : Type :=
| NaN
| PInf
| NInf
| Fin (q : Qc).

Definition isnan (x : f8) : bool :=
  match x with NaN => true | _ => false end.

(** [x == 0.0] *)
Definition is_zero (x : f8) : bool :=
  match x with
  | Fin q => match q ?= 0 with Eq => true | _ => false end
  | _ => false
  end.

Definition fneg (x : f8) : f8 :=
  match x with
  | NaN => NaN
  | PInf => NInf
  | NInf => PInf
  | Fin q => Fin (- q)
  end.

Definition fadd (x y : f8) : f8 :=
  match x, y with
  | NaN, _ | _, NaN => NaN
  | PInf, NInf | NInf, PInf => NaN
  | PInf, _ | _, PInf => PInf
  | NInf, _ | _, NInf => NInf
  | Fin a, Fin b => Fin (a + b)
  end.

Definition fsub (x y : f8) : f8 := fadd x (fneg y).

(** An infinity times, or over, a finite number [q]. *)
Definition inf_scaled (inf : f8) (q : Qc) : f8 :=
  match q ?= 0 with
  | Eq => NaN
  | Gt => inf
  | Lt => fneg inf
  end.

Definition fmul (x y : f8) : f8 :=
  match x, y with
  | NaN, _ | _, NaN => NaN
  | Fin a, Fin b => Fin (a * b)
  | Fin a, inf => inf_scaled inf a
  | inf, Fin b => inf_scaled inf b
  | PInf, PInf | NInf, NInf => PInf
  | PInf, NInf | NInf, PInf => NInf
  end.

(** Division.  A zero divisor is taken as [+0.0]. *)
Definition fdiv (x y : f8) : f8 :=
  match x, y with
  | NaN, _ | _, NaN => NaN
  | Fin a, Fin b =>
      match b ?= 0 with
      | Eq => inf_scaled PInf a
      | _ => Fin (a / b)
      end
  | Fin _, _ => Fin 0
  | inf, Fin b =>
      match b ?= 0 with
      | Lt => fneg inf
      | _ => inf
      end
  | _, _ => NaN
  end.

(** An integer or a decimal literal as a float. *)
Definition of_Z (z : Z) : f8 := Fin (Q2Qc (inject_Z z)).
Definition of_Q (q : Q) : f8 := Fin (Q2Qc q).

(** [ndarray.sum()] of a one-dimensional array.  The sum is exact, so the
    order of the additions plays no part here; [Binary64.np_sum] has the
    order and the rounding. *)
Definition np_sum (l : list f8) : f8 := fold_right fadd (Fin 0) l.

(** Elementwise [a * b] of two arrays of one shape. *)
Fixpoint np_multiply (a b : list f8) : list f8 :=
  match a, b with
  | x :: a', y :: b' => fmul x y :: np_multiply a' b'
  | _, _ => []
  end.

(** [a - c], an array minus a scalar. *)
Definition np_sub_scalar (a : list f8) (c : f8) : list f8 :=
  map (fun x => fsub x c) a.

(** [netCDF4.default_fillvals['f8']], the literal [9.969209968386869e+36].
    The double it denotes is [15 * 2^119]. *)
Definition default_fillvals_f8 : f8 := of_Z (15 * 2 ^ 119).

(* ================================================================== *)
(** ** Python exceptions *)

Inductive exn : Type :=
| KeyError
| IndexError
| TypeError
| AttributeError
| ZeroDivisionError.

Inductive result (A : Type) : Type :=
| Ok (a : A)
| Raise (e : exn).
Arguments Ok {A} a.
Arguments Raise {A} e.

Definition bind {A B : Type} (m : result A) (k : A -> result B) : result B :=
  match m with
  | Ok a => k a
  | Raise e => Raise e
  end.

Notation "x <- m ;; k" := (bind m (fun x => k))
  (at level 61, m at next level, right associativity).

Definition raises {A : Type} (m : result A) : Prop :=
  exists e, m = Raise e.

(* ================================================================== *)
(** ** helper.py and the local [getaverage] of [run_weights] *)

(** [numpy.average(a, weights=wgt)] on one-dimensional float arrays:
<<
    if a.shape != wgt.shape: raise TypeError(...)       # axis is None
    scl = wgt.sum()
    if np.any(scl == 0.0): raise ZeroDivisionError(...)
    avg = np.multiply(a, wgt).sum() / scl
>> *)
Definition average (a wgt : list f8) : result f8 :=
  if negb (length a =? length wgt)%nat then Raise TypeError
  else
    let scl := np_sum wgt in
    if is_zero scl then Raise ZeroDivisionError
    else Ok (fdiv (np_sum (np_multiply a wgt)) scl).

(** [getaverage], defined in [helper.py] and again, with the same body,
    inside [run_weights]:
<<
    try:
        v_ave = average(data, weights=wghts)
    except ZeroDivisionError:
        v_ave = default_fillvals['f8']
    return v_ave
>> *)
Definition getaverage (data wghts : list f8) : result f8 :=
  match average data wghts with
  | Raise ZeroDivisionError => Ok default_fillvals_f8
  | v_ave => v_ave
  end.

(** A one-dimensional [numpy.ma] array: the data and, for each element,
    whether it is masked. *)
Definition marray : Type := list (f8 * bool).

(** [np.ma.masked_array(ndata, mask)] *)
Definition masked_array (ndata : list f8) (mask : list bool) : marray :=
  combine ndata mask.

(** [MaskedArray.sum()]: the constant [masked] ([None]) when every element
    is masked, which includes the empty array, and else the sum of the data
    with the masked elements filled with 0. *)
Definition ma_filled0 (a : marray) : list f8 :=
  map (fun xm : f8 * bool => if snd xm then Fin 0 else fst xm) a.

Definition ma_sum (a : marray) : option f8 :=
  if forallb (fun xm : f8 * bool => snd xm) a then None
  else Some (np_sum (ma_filled0 a)).

(** The weights as [np.ma.average] prepares them:
<<
    wgt = wgt*(~a.mask)
    wgt.mask |= a.mask
>> *)
Fixpoint ma_weights (a : marray) (wgt : list f8) : marray :=
  match a, wgt with
  | (_, m) :: a', w :: wgt' =>
      (fmul w (if m then Fin 0 else Fin 1), m) :: ma_weights a' wgt'
  | _, _ => []
  end.

(** [np.multiply(a, wgt)] of two masked arrays: the product of the data,
    masked where either operand is. *)
Fixpoint ma_multiply (a b : marray) : marray :=
  match a, b with
  | (x, m) :: a', (y, n) :: b' => (fmul x y, m || n) :: ma_multiply a' b'
  | _, _ => []
  end.

(** [np.ma.average(a, weights=wgt)] for a masked one-dimensional [a]:
<<
    if a.shape != wgt.shape: raise TypeError(...)
    scl = wgt.sum()
    avg = np.multiply(a, wgt).sum() / scl
>>
    Both sums are [masked] or both are numpy scalars; the quotient of two
    numpy scalars is the plain float division. *)
Definition ma_average (a : marray) (wgt : list f8) : result (option f8) :=
  if negb (length a =? length wgt)%nat then Raise TypeError
  else
    let wgt' := ma_weights a wgt in
    match ma_sum (ma_multiply a wgt'), ma_sum wgt' with
    | Some num, Some scl => Ok (Some (fdiv num scl))
    | _, _ => Ok None
    end.

(** [np_get_wval], whose third parameter [hru_id] is not used:
<<
    mdata = np.ma.masked_array(ndata, np.isnan(ndata))
    tmp = np.ma.average(mdata, weights=wghts)
    if tmp is masked:
        return netCDF4.default_fillvals['f8']
    else:
        return tmp
>> *)
Definition np_get_wval (ndata wghts : list f8) : result f8 :=
  let mdata := masked_array ndata (map isnan ndata) in
  tmp <- ma_average mdata wghts ;;
  match tmp with
  | None => Ok default_fillvals_f8
  | Some v => Ok v
  end.

(* ================================================================== *)
(** ** [getaverage] on binary64 numbers

    The same [average] and [getaverage], on the floating-point numbers of
    the machine: [float] is IEEE 754 binary64, and [+], [*], [/] and [=?]
    are its rounded operations and its comparison (for which [-0.0] equals
    [0.0] and NaN equals nothing). *)

Module Binary64.
Import Floats.
Local Open Scope float_scope.
#[local] Set Warnings "-inexact-float".

(** [netCDF4.default_fillvals['f8']], the double [9.969209968386869e+36],
    which is [15 * 2^119]. *)
Definition default_fillvals_f8 : float := 0x1.ep+122.

(** The summation of numpy for a contiguous array of floats
    ([pairwise_sum] of [loops_utils.h.src]), by the number [n] of
    elements:
    - [n < 8]: the elements are added to 0, from left to right;
    - [n <= 128]: eight running sums start as the first eight elements;
      each further block of eight elements is added to them, element by
      element; the eight sums are added up as
      [((r0+r1)+(r2+r3)) + ((r4+r5)+(r6+r7))] and the at most seven
      elements that remain are added to that, from left to right;
    - otherwise the array is cut at [n/2] rounded down to a multiple of
      8, and the sums of the two parts are added.
    [fuel] bounds the depth of the cutting; the length of the array is
    enough. *)
Fixpoint add8 (r c : list float) : list float :=
  match r, c with
  | x :: r', y :: c' => (x + y) :: add8 r' c'
  | _, _ => r
  end.

Fixpoint unrolled (r a : list float) (blocks : nat) : list float * list float :=
  match blocks with
  | O => (r, a)
  | S k => unrolled (add8 r (firstn 8 a)) (skipn 8 a) k
  end.

Definition combine8 (r : list float) : float :=
  match r with
  | [r0; r1; r2; r3; r4; r5; r6; r7] =>
      ((r0 + r1) + (r2 + r3)) + ((r4 + r5) + (r6 + r7))
  | _ => 0
  end.

Fixpoint pairwise_sum (fuel : nat) (a : list float) : float :=
  let n := length a in
  if (n <? 8)%nat then fold_left add a 0
  else if (n <=? 128)%nat then
    let '(r, rest) := unrolled (firstn 8 a) (skipn 8 a) (n / 8 - 1) in
    fold_left add rest (combine8 r)
  else
    match fuel with
    | O => 0
    | S fuel' =>
        let n2 := (n / 2 - (n / 2) mod 8)%nat in
        pairwise_sum fuel' (firstn n2 a) + pairwise_sum fuel' (skipn n2 a)
    end.

(** [ndarray.sum()] of a one-dimensional array of floats: the reduction
    starts from the identity 0.0 of the addition and adds the pairwise sum
    of the elements to it. *)
Definition np_sum (a : list float) : float := 0 + pairwise_sum (length a) a.

(** Elementwise [a * b] of two arrays of one shape. *)
Fixpoint np_multiply (a b : list float) : list float :=
  match a, b with
  | x :: a', y :: b' => (x * y) :: np_multiply a' b'
  | _, _ => []
  end.

(** [numpy.average(a, weights=wgt)], as above. *)
Definition average (a wgt : list float) : result float :=
  if negb (length a =? length wgt)%nat then Raise TypeError
  else
    let scl := np_sum wgt in
    if scl =? 0 then Raise ZeroDivisionError
    else Ok (np_sum (np_multiply a wgt) / scl).

(** [getaverage], as above. *)
Definition getaverage (data wghts : list float) : result float :=
  match average data wghts with
  | Raise ZeroDivisionError => Ok default_fillvals_f8
  | v_ave => v_ave
  end.

(** The numbers and the pairs of the examples: the doubles nearest to 0.1,
    to 0.7 and to 1e308, and the pairs (1, 1e16), (2, 1), (3, -1e16) in two
    orders. *)
Definition tenth : float := 0.1.
Definition seven_tenths : float := 0.7.
Definition huge : float := 1e308.
Definition cancelling_pairs : list (float * float) :=
  [(1, 1e16); (2, 1); (3, -1e16)].
Definition cancelling_pairs_reordered : list (float * float) :=
  [(1, 1e16); (3, -1e16); (2, 1)].
End Binary64.

(* ================================================================== *)
(** ** helper.py: [get_gm_url]

    The function reads the clock and formats dates through the [datetime]
    module; the model takes the type of dates, the subtraction of a number
    of days and the formatting by ["%Y-%m-%d"] as given, and the two
    readings of the clock as arguments.  Dates are taken without bounds: the
    [OverflowError] of [dt.timedelta] for more than 999999999 days, and of
    a subtraction that leaves the years 1 to 9999, is not modelled, so the
    model says when the function does not return its tuple, not that it
    returns one for every number of days. *)

(** The exceptions of [get_gm_url], which are not those of the
    aggregation. *)
Inductive gm_exn : Type :=
| GmTypeError            (* [dt.timedelta(days=None)] *)
| GmAttributeError       (* [None.strftime] *)
| GmUnboundLocalError.   (* [str_start] read before any assignment *)

(** What a call of [get_gm_url] ends with: an exception, [None] (no
    [return] is reached), or the tuple [(str_start_cf, url, payload)]. *)
Inductive gm_return : Type :=
| GmRaise (e : gm_exn)
| GmNone
| GmTuple (str_start_cf : string) (url : option string)
    (payload : list (string * option string)).

(** The chain [if dataset == 'tmax': ... elif ...], which leaves [dsvar]
    and [url] at [None] for any other dataset. *)
Definition gm_dataset (dataset : string) : option string * option string :=
  if String.eqb dataset "tmax" then
    (Some "daily_maximum_temperature",
     Some "http://thredds.northwestknowledge.net:8080/thredds/ncss/agg_met_tmmx_1979_CurrentYear_CONUS.nc")
  else if String.eqb dataset "tmin" then
    (Some "daily_minimum_temperature",
     Some "http://thredds.northwestknowledge.net:8080/thredds/ncss/agg_met_tmmn_1979_CurrentYear_CONUS.nc")
  else if String.eqb dataset "ppt" then
    (Some "precipitation_amount",
     Some "http://thredds.northwestknowledge.net:8080/thredds/ncss/agg_met_pr_1979_CurrentYear_CONUS.nc")
  else if String.eqb dataset "rhmax" then
    (Some "daily_maximum_relative_humidity",
     Some "http://thredds.northwestknowledge.net:8080/thredds/ncss/grid/agg_met_rmax_1979_CurrentYear_CONUS.nc")
  else if String.eqb dataset "rhmin" then
    (Some "daily_minimum_relative_humidity",
     Some "http://thredds.northwestknowledge.net:8080/thredds/ncss/grid/agg_met_rmin_1979_CurrentYear_CONUS.nc")
  else if String.eqb dataset "ws" then
    (Some "daily_mean_wind_speed",
     Some "http://thredds.northwestknowledge.net:8080/thredds/ncss/grid/agg_met_vs_1979_CurrentYear_CONUS.nc")
  else if String.eqb dataset "srad" then
    (Some "daily_mean_shortwave_radiation_at_surface",
     Some "http://thredds.northwestknowledge.net:8080/thredds/ncss/grid/agg_met_srad_1979_CurrentYear_CONUS.nc")
  else (None, None).

Definition gm_payload (dsvar : option string) (str_start str_end : string)
  : list (string * option string) :=
  [ ("var", dsvar);
    ("north", Some "49.4000");
    ("west", Some "-124.7666");
    ("east", Some "-67.0583");
    ("south", Some "25.0666");
    ("disableLLSubset", Some "on");
    ("disableProjSubset", Some "on");
    ("horizStride", Some "1");
    ("time_start", Some str_start);
    ("time_end", Some str_end);
    ("timeStride", Some "1");
    ("accept", Some "netcdf") ].

(** [payload[key]] *)
Fixpoint payload_get (payload : list (string * option string)) (key : string)
  : option (option string) :=
  match payload with
  | [] => None
  | (k, x) :: payload' =>
      if String.eqb k key then Some x else payload_get payload' key
  end.

Section get_gm_url.
Variable datetime : Type.
(** [d - dt.timedelta(days=n)] and [d.strftime("%Y-%m-%d")] *)
Variable minus_days : datetime -> Z -> datetime.
Variable strftime : datetime -> string.

(** The first part of the function: [(str_start, str_end, str_start_cf)],
    which stay unassigned ([None]) when [type] is neither ['days'] nor
    ['date'].  [now_end] and [now_start] are the two readings of
    [dt.datetime.now()], in the order of the calls. *)
Definition gm_dates (type : string) (numdays : option Z)
    (startdate enddate : option datetime) (now_end now_start : datetime)
  : gm_exn + option (string * string * string) :=
  if String.eqb type "days" then
    match numdays with
    | None => inl GmTypeError
    | Some n =>
        let end_ := minus_days now_end 1 in
        let start := minus_days now_start n in
        inr (Some (strftime start ++ "T00:00:00Z",
                   strftime end_ ++ "T00:00:00Z",
                   strftime start ++ " 00:00:00"))
    end
  else if String.eqb type "date" then
    match startdate, enddate with
    | Some s, Some e =>
        inr (Some (strftime s ++ "T00:00:00Z",
                   strftime e ++ "T00:00:00Z",
                   strftime s ++ " 00:00:00"))
    | _, _ => inl GmAttributeError
    end
  else inr None.

Definition get_gm_url (type dataset : string) (numdays : option Z)
    (startdate enddate : option datetime) (ctype : string)
    (now_end now_start : datetime) : gm_return :=
  match gm_dates type numdays startdate enddate now_end now_start with
  | inl e => GmRaise e
  | inr dates =>
      if String.eqb ctype "GridMetSS" then
        let '(dsvar, url) := gm_dataset dataset in
        match dates with
        | Some (str_start, str_end, str_start_cf) =>
            GmTuple str_start_cf url (gm_payload dsvar str_start str_end)
        | None => GmRaise GmUnboundLocalError
        end
      else GmNone
  end.
End get_gm_url.

(* ================================================================== *)
(** ** pandas: the weights file

    A [DataFrame] is its columns, in header order; a column of numbers is of
    dtype [int64] when every field parsed as an integer and of dtype
    [float64] otherwise.  All columns of a frame have one length. *)

Inductive column : Type :=
| IntCol (l : list Z)
| FloatCol (l : list f8).

Definition DataFrame : Type := list (string * column).

(** [df.columns] *)
Definition columns (df : DataFrame) : list string := map fst df.

(** [column.values] as floats, the way numpy promotes them in arithmetic. *)
Definition col_floats (c : column) : list f8 :=
  match c with
  | IntCol l => map of_Z l
  | FloatCol l => l
  end.

(** The rows of a column picked by a boolean mask. *)
Fixpoint select {A : Type} (mask : list bool) (l : list A) : list A :=
  match mask, l with
  | true :: mask', x :: l' => x :: select mask' l'
  | false :: mask', _ :: l' => select mask' l'
  | _, _ => []
  end.

Definition col_select (mask : list bool) (c : column) : column :=
  match c with
  | IntCol l => IntCol (select mask l)
  | FloatCol l => FloatCol (select mask l)
  end.

Fixpoint lookup_col (name : string) (df : DataFrame) : option column :=
  match df with
  | [] => None
  | (n, c) :: df' => if String.eqb n name then Some c else lookup_col name df'
  end.

(** [df.<name>.values]: attribute access to a column. *)
Definition getattr_values (df : DataFrame) (name : string) : result column :=
  match lookup_col name df with
  | Some c => Ok c
  | None => Raise AttributeError
  end.

(** [x == y] on floats. *)
Definition f8_eqb (x y : f8) : bool :=
  match x, y with
  | Fin a, Fin b => match a ?= b with Eq => true | _ => false end
  | PInf, PInf | NInf, NInf => true
  | _, _ => false
  end.

(** [df.groupby(keys)] *)
Record DataFrameGroupBy : Type := GroupBy {
  obj : DataFrame;
  keys : string
}.

(** The rows whose key equals [name]. *)
Definition group_mask (g : DataFrameGroupBy) (name : Z) : list bool :=
  match lookup_col (keys g) (obj g) with
  | Some c => map (f8_eqb (of_Z name)) (col_floats c)
  | None => []
  end.

Definition has_group (g : DataFrameGroupBy) (name : Z) : bool :=
  existsb (fun b : bool => b) (group_mask g name).

(** [g.get_group(name)]: the rows of the frame whose key is [name], in the
    order of the file; [KeyError] when there is none. *)
Definition get_group (g : DataFrameGroupBy) (name : Z) : result DataFrame :=
  let mask := group_mask g name in
  if has_group g name
  then Ok (map (fun nc : string * column => (fst nc, col_select mask (snd nc)))
             (obj g))
  else Raise KeyError.

(** [a[i]] for a numpy array and an integer, negative indices counting from
    the end. *)
Definition getitem {A : Type} (a : list A) (i : Z) : result A :=
  let n := Z.of_nat (length a) in
  let j := if (i <? 0)%Z then (i + n)%Z else i in
  if ((0 <=? j) && (j <? n))%Z
  then match nth_error a (Z.to_nat j) with
       | Some x => Ok x
       | None => Raise IndexError
       end
  else Raise IndexError.

Fixpoint mapM {A B : Type} (f : A -> result B) (l : list A) : result (list B) :=
  match l with
  | [] => Ok []
  | x :: l' => y <- f x ;; ys <- mapM f l' ;; Ok (y :: ys)
  end.

(** [a[tgid]]: indexing by an array, which must be of integer dtype. *)
Definition take (a : list f8) (tgid : column) : result (list f8) :=
  match tgid with
  | IntCol l => mapM (getitem a) l
  | FloatCol _ => Raise IndexError
  end.

(** [a[i] = v], for [i] in range. *)
Fixpoint store {A : Type} (a : list A) (i : nat) (v : A) : list A :=
  match a, i with
  | [], _ => []
  | _ :: a', O => v :: a'
  | x :: a', S i' => x :: store a' i' v
  end.

(** [numpy.zeros(n)] *)
Definition zeros (n : nat) : list f8 := repeat (Fin 0) n.

(* ================================================================== *)
(** ** xarray: the retrieved grids

    The data variables of the merged dataset, each a [(day, lat, lon)]
    array. *)

Definition Dataset : Type := list (string * list (list (list f8))).

Fixpoint ds_getitem (ds : Dataset) (name : string)
  : result (list (list (list f8))) :=
  match ds with
  | [] => Raise KeyError
  | (n, a) :: ds' => if String.eqb n name then Ok a else ds_getitem ds' name
  end.

(** [ds.sizes]: the extents of the dimensions [day], [lat] and [lon]. *)
Definition sizes (ds : Dataset) : result (nat * nat * nat) :=
  match ds with
  | [] => Raise KeyError
  | (_, a) :: _ => Ok (length a, length (hd [] a), length (hd [] (hd [] a)))
  end.

(* ================================================================== *)
(** ** etl.py: class [FpoNHM] *)

(** One value for each of the seven climate variables: the arrays that the
    code keeps as [d_tmax ... d_srad], [d_flt_tmax ... d_flt_srad] and
    [np_tmax ... np_srad]. *)
Record pervar (A : Type) : Type := PerVar {
  tmax : A;
  tmin : A;
  ppt : A;
  rhmax : A;
  rhmin : A;
  ws : A;
  srad : A
}.
Arguments PerVar {A}.
Arguments tmax {A}.
Arguments tmin {A}.
Arguments ppt {A}.
Arguments rhmax {A}.
Arguments rhmin {A}.
Arguments ws {A}.
Arguments srad {A}.

Definition with_tmax {A} (x : A) (p : pervar A) : pervar A :=
  PerVar x (tmin p) (ppt p) (rhmax p) (rhmin p) (ws p) (srad p).
Definition with_tmin {A} (x : A) (p : pervar A) : pervar A :=
  PerVar (tmax p) x (ppt p) (rhmax p) (rhmin p) (ws p) (srad p).
Definition with_ppt {A} (x : A) (p : pervar A) : pervar A :=
  PerVar (tmax p) (tmin p) x (rhmax p) (rhmin p) (ws p) (srad p).
Definition with_rhmax {A} (x : A) (p : pervar A) : pervar A :=
  PerVar (tmax p) (tmin p) (ppt p) x (rhmin p) (ws p) (srad p).
Definition with_rhmin {A} (x : A) (p : pervar A) : pervar A :=
  PerVar (tmax p) (tmin p) (ppt p) (rhmax p) x (ws p) (srad p).
Definition with_ws {A} (x : A) (p : pervar A) : pervar A :=
  PerVar (tmax p) (tmin p) (ppt p) (rhmax p) (rhmin p) x (srad p).
Definition with_srad {A} (x : A) (p : pervar A) : pervar A :=
  PerVar (tmax p) (tmin p) (ppt p) (rhmax p) (rhmin p) (ws p) x.

Definition pv_const {A} (x : A) : pervar A := PerVar x x x x x x x.

(** The fields of the object that the aggregation reads, and the arrays that
    it writes.  [num_hru] is [len(self.gdf.index)], the number of target
    units, and is derived from the unit collection here.  The two fields
    [wghts_id] and [unique_hru_ids], which [run_weights] also assigns, are
    not fields of the record: they are the [keys] and the whole of the
    [DataFrameGroupBy] that [weight_table] returns. *)
Record FpoNHM : Type := mkFpoNHM {
  vars : list string;
  numdays : nat;
  ds : Dataset;
  gdf_hru_id_nat : list Z;
  wghts_file : DataFrame;       (* as [pd.read_csv(self.wghts_file)] reads it *)
  dayshape : nat;
  lonshape : nat;
  latshape : nat;
  np : pervar (list (list f8))  (* [np_tmax ... np_srad] *)
}.

Definition num_hru (self : FpoNHM) : nat := length (gdf_hru_id_nat self).

Definition with_shapes (day lon lat : nat) (self : FpoNHM) : FpoNHM :=
  mkFpoNHM (vars self) (numdays self) (ds self) (gdf_hru_id_nat self)
    (wghts_file self) day lon lat (np self).

Definition with_np (a : pervar (list (list f8))) (self : FpoNHM) : FpoNHM :=
  mkFpoNHM (vars self) (numdays self) (ds self) (gdf_hru_id_nat self)
    (wghts_file self) (dayshape self) (lonshape self) (latshape self) a.

(** [self.gmss_vars], set in [__init__]. *)
Definition gmss_vars : list (string * string) :=
  [ ("tmax", "daily_maximum_temperature");
    ("tmin", "daily_minimum_temperature");
    ("ppt", "precipitation_amount");
    ("rhmax", "daily_maximum_relative_humidity");
    ("rhmin", "daily_minimum_relative_humidity");
    ("ws", "daily_mean_wind_speed");
    ("srad", "daily_mean_shortwave_radiation_at_surface") ].

Fixpoint dict_getitem (dict : list (string * string)) (k : string)
  : result string :=
  match dict with
  | [] => Raise KeyError
  | (k', v) :: dict' => if String.eqb k' k then Ok v else dict_getitem dict' k
  end.

(** ['tvar' in self.vars] *)
Definition in_vars (tvar : string) (self : FpoNHM) : bool :=
  existsb (String.eqb tvar) (vars self).

(** The end of [initialize], once the retrieved files are opened as
    [self.ds]:
<<
    ts = self.ds.sizes
    self.dayshape = ts['day']
    self.lonshape = ts['lon']
    self.latshape = ts['lat']
    if self.dayshape == self.numdays:
        return True
    else:
        return False
>> *)
Definition initialize (self : FpoNHM) : result (FpoNHM * bool) :=
  ts <- sizes (ds self) ;;
  let '(day, lat, lon) := ts in
  let self := with_shapes day lon lat self in
  if (dayshape self =? numdays self)%nat
  then Ok (self, true)
  else Ok (self, false).

(** The weight table, built at the start of [run_weights]:
<<
    wght_uofi = pd.read_csv(self.wghts_file)
    self.wghts_id = wght_uofi.columns[1]
    self.unique_hru_ids = wght_uofi.groupby(self.wghts_id)
>>
    The argument is the frame that [pd.read_csv] has returned.  The reading
    itself is not modelled: a file that is missing, or empty
    ([EmptyDataError]), ends the call before this point. *)
Definition weight_table (wght_uofi : DataFrame) : result DataFrameGroupBy :=
  match nth_error (columns wght_uofi) 1 with
  | Some wghts_id => Ok (GroupBy wght_uofi wghts_id)
  | None => Raise IndexError
  end.

(** A day's grid of one variable, flattened:
<<
    self.ds[self.gmss_vars[tvar]].values[day, :, :].flatten(order='K')
>>
    [order='K'] is the order of the elements in memory; the array is taken
    as xarray loads it, C-contiguous, for which that is row after row. *)
Definition day_slice (self : FpoNHM) (tvar : string) (day : nat)
  : result (list f8) :=
  name <- dict_getitem gmss_vars tvar ;;
  values <- ds_getitem (ds self) name ;;
  match nth_error values day with
  | Some grid => Ok (concat grid)
  | None => Raise IndexError
  end.

(** The body of the loop over the target units, for unit number [i] of id
    [index_i]. *)
Definition hru_body (self : FpoNHM) (unique_hru_ids : DataFrameGroupBy)
    (d_flt : pervar (list f8)) (i : nat) (index_i : Z) (d : pervar (list f8))
  : result (pervar (list f8)) :=
  weight_id_rows <- get_group unique_hru_ids index_i ;;
  w <- getattr_values weight_id_rows "w" ;;
  let tw := col_floats w in
  tgid <- getattr_values weight_id_rows "grid_ids" ;;
  d <- (if in_vars "tmax" self then
          cells <- take (tmax d_flt) tgid ;;
          v <- getaverage (np_sub_scalar cells (of_Q 273.5)) tw ;;
          Ok (with_tmax (store (tmax d) i v) d)
        else Ok d) ;;
  d <- (if in_vars "tmin" self then
          cells <- take (tmin d_flt) tgid ;;
          v <- getaverage (np_sub_scalar cells (of_Q 273.5)) tw ;;
          Ok (with_tmin (store (tmin d) i v) d)
        else Ok d) ;;
  d <- (if in_vars "ppt" self then
          cells <- take (ppt d_flt) tgid ;;
          v <- getaverage cells tw ;;
          Ok (with_ppt (store (ppt d) i v) d)
        else Ok d) ;;
  d <- (if in_vars "rhmax" self then
          cells <- take (rhmax d_flt) tgid ;;
          v <- getaverage cells tw ;;
          Ok (with_rhmax (store (rhmax d) i v) d)
        else Ok d) ;;
  d <- (if in_vars "rhmin" self then
          cells <- take (rhmin d_flt) tgid ;;
          v <- getaverage cells tw ;;
          Ok (with_rhmin (store (rhmin d) i v) d)
        else Ok d) ;;
  d <- (if in_vars "ws" self then
          cells <- take (ws d_flt) tgid ;;
          v <- getaverage cells tw ;;
          Ok (with_ws (store (ws d) i v) d)
        else Ok d) ;;
  d <- (if in_vars "srad" self then
          cells <- take (srad d_flt) tgid ;;
          v <- getaverage cells tw ;;
          Ok (with_srad (store (srad d) i v) d)
        else Ok d) ;;
  Ok d.

(** [for i in range(len(index)): ...] *)
Fixpoint hru_loop (self : FpoNHM) (unique_hru_ids : DataFrameGroupBy)
    (d_flt : pervar (list f8)) (i : nat) (index : list Z) (d : pervar (list f8))
  : result (pervar (list f8)) :=
  match index with
  | [] => Ok d
  | index_i :: rest =>
      d <- hru_body self unique_hru_ids d_flt i index_i d ;;
      hru_loop self unique_hru_ids d_flt (S i) rest d
  end.

(** What the start of a day's iteration leaves in [d_v] and [d_flt_v] for
    one variable; both are left alone (here: empty) when the variable is
    not asked for. *)
Definition day_init (self : FpoNHM) (tvar : string) (day : nat)
  : result (list f8 * list f8) :=
  if in_vars tvar self then
    d_flt <- day_slice self tvar day ;;
    Ok (zeros (num_hru self), d_flt)
  else Ok ([], []).

(** [np_v[day, :] = d_v[:]] when the variable is asked for. *)
Definition day_store (self : FpoNHM) (tvar : string) (day : nat)
    (np_v : list (list f8)) (d_v : list f8) : list (list f8) :=
  if in_vars tvar self then store np_v day d_v else np_v.

(** The body of the loop over the days. *)
Definition day_body (self : FpoNHM) (unique_hru_ids : DataFrameGroupBy)
    (index : list Z) (day : nat) (np : pervar (list (list f8)))
  : result (pervar (list (list f8))) :=
  i_tmax <- day_init self "tmax" day ;;
  i_tmin <- day_init self "tmin" day ;;
  i_ppt <- day_init self "ppt" day ;;
  i_rhmax <- day_init self "rhmax" day ;;
  i_rhmin <- day_init self "rhmin" day ;;
  i_ws <- day_init self "ws" day ;;
  i_srad <- day_init self "srad" day ;;
  let d := PerVar (fst i_tmax) (fst i_tmin) (fst i_ppt) (fst i_rhmax)
             (fst i_rhmin) (fst i_ws) (fst i_srad) in
  let d_flt := PerVar (snd i_tmax) (snd i_tmin) (snd i_ppt) (snd i_rhmax)
                 (snd i_rhmin) (snd i_ws) (snd i_srad) in
  d <- hru_loop self unique_hru_ids d_flt 0 index d ;;
  Ok (PerVar (day_store self "tmax" day (tmax np) (tmax d))
             (day_store self "tmin" day (tmin np) (tmin d))
             (day_store self "ppt" day (ppt np) (ppt d))
             (day_store self "rhmax" day (rhmax np) (rhmax d))
             (day_store self "rhmin" day (rhmin np) (rhmin d))
             (day_store self "ws" day (ws np) (ws d))
             (day_store self "srad" day (srad np) (srad d))).

(** [for day in arange(self.numdays): ...] *)
Fixpoint day_loop (self : FpoNHM) (unique_hru_ids : DataFrameGroupBy)
    (index : list Z) (days : list nat) (np : pervar (list (list f8)))
  : result (pervar (list (list f8))) :=
  match days with
  | [] => Ok np
  | day :: rest =>
      np <- day_body self unique_hru_ids index day np ;;
      day_loop self unique_hru_ids index rest np
  end.

(** [run_weights]: the object after the call, or the exception that ends
    it. *)
Definition run_weights (self : FpoNHM) : result FpoNHM :=
  unique_hru_ids <- weight_table (wghts_file self) ;;
  let np0 := pv_const (repeat (zeros (num_hru self)) (numdays self)) in
  let index := gdf_hru_id_nat self in
  np <- day_loop self unique_hru_ids index (seq 0 (numdays self)) np0 ;;
  Ok (with_np np self).

(** The climate variables that [finalize] creates in the output file, one
    for each known entry of [self.vars], with their attributes and data
    (the conversion of the data to [float32] is not modelled). *)
Record ncvar : Type := mkNcVar {
  varname : string;
  long_name : string;
  units : string;
  standard_name : string;
  fill_value : f8;
  data : list (list f8)
}.

Definition finalize_var (self : FpoNHM) (var : string) : list ncvar :=
  if String.eqb var "tmax" then
    [mkNcVar "tmax" "Maximum daily air temperature" "degree_Celsius"
       "maximum_daily_air_temperature" default_fillvals_f8 (tmax (np self))]
  else if String.eqb var "tmin" then
    [mkNcVar "tmin" "Minimum daily air temperature" "degree_Celsius"
       "minimum_daily_air_temperature" default_fillvals_f8 (tmin (np self))]
  else if String.eqb var "ppt" then
    [mkNcVar "prcp" "Daily Accumulated Precipitation" "mm"
       "prcp" default_fillvals_f8 (ppt (np self))]
  else if String.eqb var "rhmax" then
    [mkNcVar "rhmax" "Daily Maximum Relative Humidity" "percent"
       "rhmax" default_fillvals_f8 (rhmax (np self))]
  else if String.eqb var "rhmin" then
    [mkNcVar "rhmin" "Daily Maximum Relative Humidity" "percent"
       "rhmin" default_fillvals_f8 (rhmin (np self))]
  else if String.eqb var "ws" then
    [mkNcVar "ws" "Daily Mean Wind Speed" "m/s"
       "ws" default_fillvals_f8 (ws (np self))]
  else if String.eqb var "srad" then
    [mkNcVar "srad" "surface_downwelling_shortwave_flux_in_air " "W m-2"
       "srad " default_fillvals_f8 (srad (np self))]
  else [].

Definition finalize (self : FpoNHM) : list ncvar :=
  flat_map (finalize_var self) (vars self).

(* ================================================================== *)
(** ** The loop body, variable by variable

    The seven [if] statements of the loop body written as one step that is
    taken for each variable in turn, so that the loops can be reasoned about
    one variable at a time.  The table [variable_offset] is not in the
    code, which has the literal 273.5 in the tmax and in the tmin call;
    [hru_body_by_table] is the same function as [hru_body]. *)

Inductive gmvar : Type := Vtmax | Vtmin | Vppt | Vrhmax | Vrhmin | Vws | Vsrad.

Definition all_gmvars : list gmvar :=
  [Vtmax; Vtmin; Vppt; Vrhmax; Vrhmin; Vws; Vsrad].

Definition tvar_of (v : gmvar) : string :=
  match v with
  | Vtmax => "tmax" | Vtmin => "tmin" | Vppt => "ppt" | Vrhmax => "rhmax"
  | Vrhmin => "rhmin" | Vws => "ws" | Vsrad => "srad"
  end.

Definition pv_get {A} (v : gmvar) (p : pervar A) : A :=
  match v with
  | Vtmax => tmax p | Vtmin => tmin p | Vppt => ppt p | Vrhmax => rhmax p
  | Vrhmin => rhmin p | Vws => ws p | Vsrad => srad p
  end.

Definition pv_set {A} (v : gmvar) (x : A) (p : pervar A) : pervar A :=
  match v with
  | Vtmax => with_tmax x p | Vtmin => with_tmin x p | Vppt => with_ppt x p
  | Vrhmax => with_rhmax x p | Vrhmin => with_rhmin x p | Vws => with_ws x p
  | Vsrad => with_srad x p
  end.

Definition variable_offset (v : gmvar) : option f8 :=
  match v with
  | Vtmax | Vtmin => Some (of_Q 273.5)
  | _ => None
  end.

Definition convert (offset : option f8) (cell_values : list f8) : list f8 :=
  match offset with
  | Some c => np_sub_scalar cell_values c
  | None => cell_values
  end.

Definition hru_var (self : FpoNHM) (tgid : column) (tw : list f8)
    (d_flt : pervar (list f8)) (i : nat) (v : gmvar) (d : pervar (list f8))
  : result (pervar (list f8)) :=
  if in_vars (tvar_of v) self then
    cells <- take (pv_get v d_flt) tgid ;;
    x <- getaverage (convert (variable_offset v) cells) tw ;;
    Ok (pv_set v (store (pv_get v d) i x) d)
  else Ok d.

Fixpoint foldM {A S : Type} (f : A -> S -> result S) (l : list A) (s : S)
  : result S :=
  match l with
  | [] => Ok s
  | x :: l' => s' <- f x s ;; foldM f l' s'
  end.

Definition hru_body_by_table (self : FpoNHM) (unique_hru_ids : DataFrameGroupBy)
    (d_flt : pervar (list f8)) (i : nat) (index_i : Z) (d : pervar (list f8))
  : result (pervar (list f8)) :=
  weight_id_rows <- get_group unique_hru_ids index_i ;;
  w <- getattr_values weight_id_rows "w" ;;
  let tw := col_floats w in
  tgid <- getattr_values weight_id_rows "grid_ids" ;;
  foldM (hru_var self tgid tw d_flt i) all_gmvars d.

(* ================================================================== *)
(** ** Reference definitions

    What the properties below compare the code with. *)

(** The sum of a list of rationals, and the sum of the products of two. *)
Definition Qc_sum (l : list Qc) : Qc := fold_right Qcplus 0 l.

Fixpoint Qc_dot (vs ws : list Qc) : Qc :=
  match vs, ws with
  | v :: vs', w :: ws' => v * w + Qc_dot vs' ws'
  | _, _ => 0
  end.

(** The standard weighted mean of finite values. *)
Definition weighted_mean (vs ws : list Qc) : Qc := Qc_dot vs ws / Qc_sum ws.

(** The (value, weight) pairs whose value is not NaN, and their weighted
    mean. *)
Definition unmasked (data wghts : list f8) : list (f8 * f8) :=
  filter (fun p : f8 * f8 => negb (isnan (fst p))) (combine data wghts).

Definition masked_mean (data wghts : list f8) : f8 :=
  let pairs := unmasked data wghts in
  fdiv (np_sum (map (fun p : f8 * f8 => fmul (fst p) (snd p)) pairs))
       (np_sum (map snd pairs)).

(** Equality of computed values.  A computed [Qc] carries a proof that it
    is in lowest terms, so two equal values need not be the same term;
    [f8_beq] compares the numbers only, NaN being equal to NaN here. *)
Definition Qc_beq (a b : Qc) : bool :=
  match a ?= b with Eq => true | _ => false end.

Definition f8_beq (x y : f8) : bool :=
  match x, y with
  | NaN, NaN | PInf, PInf | NInf, NInf => true
  | Fin a, Fin b => Qc_beq a b
  | _, _ => false
  end.

Fixpoint list_beq {A : Type} (beq : A -> A -> bool) (l l' : list A) : bool :=
  match l, l' with
  | [], [] => true
  | x :: l, y :: l' => beq x y && list_beq beq l l'
  | _, _ => false
  end.

Definition result_beq (r r' : result f8) : bool :=
  match r, r' with
  | Ok x, Ok y => f8_beq x y
  | Raise KeyError, Raise KeyError
  | Raise IndexError, Raise IndexError
  | Raise TypeError, Raise TypeError
  | Raise AttributeError, Raise AttributeError
  | Raise ZeroDivisionError, Raise ZeroDivisionError => true
  | _, _ => false
  end.

(* ================================================================== *)
(** ** Inputs of the examples *)

(** A weights file with a negative weight and one whose cell indices are
    not integers. *)
Definition negative_weights_file : DataFrame :=
  [ ("Unnamed: 0", IntCol [0%Z; 1%Z]);
    ("hru_id_nat", IntCol [1%Z; 1%Z]);
    ("grid_ids", IntCol [100%Z; 101%Z]);
    ("w", FloatCol [of_Q (-0.1); of_Q 0.5]) ].

Definition fractional_index_file : DataFrame :=
  [ ("Unnamed: 0", IntCol [0%Z; 1%Z]);
    ("hru_id_nat", IntCol [1%Z; 1%Z]);
    ("grid_ids", FloatCol [of_Q 100.5; of_Z 101]);
    ("w", FloatCol [of_Q 0.5; of_Q 0.5]) ].

(** Two target units, each covered by one cell of a grid of one row and two
    columns; two days of precipitation were retrieved where one day was
    asked for. *)
Definition two_units_weights : DataFrame :=
  [ ("Unnamed: 0", IntCol [0%Z; 1%Z]);
    ("hru_id_nat", IntCol [1%Z; 2%Z]);
    ("grid_ids", IntCol [0%Z; 1%Z]);
    ("w", FloatCol [of_Z 1; of_Z 1]) ].

Definition one_day_asked : FpoNHM :=
  {| vars := ["ppt"];
     numdays := 1;
     ds := [("precipitation_amount",
             [ [[of_Z 1; of_Z 2]]; [[of_Z 3; of_Z 4]] ])];
     gdf_hru_id_nat := [1%Z; 2%Z];
     wghts_file := two_units_weights;
     dayshape := 0;
     lonshape := 0;
     latshape := 0;
     np := pv_const [] |}.

(** The run of two days over the same two units that the specification
    gives as an example: the second cell is NaN on day 0. *)
Definition two_days_one_NaN : FpoNHM :=
  {| vars := ["ppt"];
     numdays := 2;
     ds := [("precipitation_amount",
             [ [[of_Z 1; NaN]]; [[of_Z 3; of_Z 4]] ])];
     gdf_hru_id_nat := [1%Z; 2%Z];
     wghts_file := two_units_weights;
     dayshape := 2;
     lonshape := 2;
     latshape := 1;
     np := pv_const [] |}.

(** One unit covered by one cell, whose temperatures are 273.15 K. *)
Definition one_unit_weights : DataFrame :=
  [ ("Unnamed: 0", IntCol [0%Z]);
    ("hru_id_nat", IntCol [7%Z]);
    ("grid_ids", IntCol [0%Z]);
    ("w", FloatCol [of_Z 1]) ].

Definition freezing_day : FpoNHM :=
  {| vars := ["tmax"; "tmin"];
     numdays := 1;
     ds := [("daily_maximum_temperature", [ [[of_Q 273.15]] ]);
            ("daily_minimum_temperature", [ [[of_Q 273.15]] ])];
     gdf_hru_id_nat := [7%Z];
     wghts_file := one_unit_weights;
     dayshape := 1;
     lonshape := 1;
     latshape := 1;
     np := pv_const [] |}.

(** The same unit and cell, at 283.5 in the grids of tmax, tmin and ppt. *)
Definition warm_day : FpoNHM :=
  {| vars := ["tmax"; "tmin"; "ppt"];
     numdays := 1;
     ds := [("daily_maximum_temperature", [ [[of_Q 283.5]] ]);
            ("daily_minimum_temperature", [ [[of_Q 283.5]] ]);
            ("precipitation_amount", [ [[of_Q 283.5]] ])];
     gdf_hru_id_nat := [7%Z];
     wghts_file := one_unit_weights;
     dayshape := 1;
     lonshape := 1;
     latshape := 1;
     np := pv_const [] |}.

(** The units 1 and 3, of which only the first has rows in the weights
    file. *)
Definition unit_without_weights : FpoNHM :=
  {| vars := ["ppt"];
     numdays := 1;
     ds := [("precipitation_amount", [ [[of_Z 1; of_Z 2]] ])];
     gdf_hru_id_nat := [1%Z; 3%Z];
     wghts_file := two_units_weights;
     dayshape := 1;
     lonshape := 2;
     latshape := 1;
     np := pv_const [] |}.

(* ================================================================== *)
(** ** Further reference definitions *)

(** The number of rows of a column, and a frame all of whose columns have
    [n] rows. *)
Definition col_length (c : column) : nat :=
  match c with
  | IntCol l => length l
  | FloatCol l => length l
  end.

Definition frame_rows (df : DataFrame) (n : nat) : Prop :=
  Forall (fun nc : string * column => col_length (snd nc) = n) df.

(** The number of rows of the weights file whose key is [name]. *)
Definition group_size (g : DataFrameGroupBy) (name : Z) : nat :=
  length (filter (fun b : bool => b) (group_mask g name)).

(** An index of a numpy array of [n] elements that is in bounds. *)
Definition in_bounds (n : nat) (z : Z) : Prop :=
  (- Z.of_nat n <= z < Z.of_nat n)%Z.

(** What the unit loop stores for variable [v] and the unit of id
    [index_i], from the flattened grid [d_flt_v] of the day: the statements
    of the loop body that concern this one variable. *)
Definition unit_value (unique_hru_ids : DataFrameGroupBy) (d_flt_v : list f8)
    (v : gmvar) (index_i : Z) : result f8 :=
  weight_id_rows <- get_group unique_hru_ids index_i ;;
  w <- getattr_values weight_id_rows "w" ;;
  tgid <- getattr_values weight_id_rows "grid_ids" ;;
  cells <- take d_flt_v tgid ;;
  getaverage (convert (variable_offset v) cells) (col_floats w).

Definition pv_map {A B : Type} (f : A -> B) (p : pervar A) : pervar B :=
  PerVar (f (tmax p)) (f (tmin p)) (f (ppt p)) (f (rhmax p)) (f (rhmin p))
    (f (ws p)) (f (srad p)).

(** The row that a day's iteration stores for variable [v]: one value for
    each target unit, which is the [unit_value] of the unit on the grid of
    that day. *)
Definition day_row (self : FpoNHM) (unique_hru_ids : DataFrameGroupBy)
    (v : gmvar) (day : nat) (row : list f8) : Prop :=
  length row = num_hru self
  /\ exists d_flt_v,
       day_slice self (tvar_of v) day = Ok d_flt_v
       /\ forall i index_i,
            nth_error (gdf_hru_id_nat self) i = Some index_i ->
            exists x,
              unit_value unique_hru_ids d_flt_v v index_i = Ok x
              /\ nth_error row i = Some x.

(** The object with another list of variables, and [setnumdays]. *)
Definition with_vars (ivars : list string) (self : FpoNHM) : FpoNHM :=
  mkFpoNHM ivars (numdays self) (ds self) (gdf_hru_id_nat self)
    (wghts_file self) (dayshape self) (lonshape self) (latshape self)
    (np self).

Definition setnumdays (self : FpoNHM) (num_d : nat) : FpoNHM :=
  mkFpoNHM (vars self) num_d (ds self) (gdf_hru_id_nat self)
    (wghts_file self) (dayshape self) (lonshape self) (latshape self)
    (np self).

(** The name under which [finalize] writes a variable. *)
Definition nc_name (v : gmvar) : string :=
  match v with
  | Vppt => "prcp"
  | _ => tvar_of v
  end.

(* ================================================================== *)
(** * Properties *)

(** ** Deciding equalities between computed values *)

Lemma Qc_beq_eq (a b : Qc) : Qc_beq a b = true <-> a = b.
Proof.
  unfold Qc_beq. rewrite Qceq_alt.
  destruct (a ?= b); split; congruence.
Qed.

Lemma f8_beq_eq (x y : f8) : f8_beq x y = true <-> x = y.
Proof.
  destruct x, y; simpl; try (split; congruence).
  rewrite Qc_beq_eq. split; congruence.
Qed.

Lemma list_beq_eq {A : Type} (beq : A -> A -> bool) :
  (forall x y, beq x y = true -> x = y) ->
  forall l l', list_beq beq l l' = true -> l = l'.
Proof.
  intros Hbeq. induction l as [|x l IH]; destruct l' as [|y l']; simpl;
    try congruence.
  intros H. apply andb_prop in H. destruct H as [Hx Hl].
  f_equal; auto.
Qed.

Lemma result_beq_eq (r r' : result f8) : result_beq r r' = true -> r = r'.
Proof.
  destruct r as [x|[]], r' as [y|[]]; simpl; try congruence.
  intros H. apply f8_beq_eq in H. congruence.
Qed.

(** [x = y] for closed float results, lists and matrices of floats. *)
Ltac f8_decide :=
  first
    [ apply result_beq_eq; vm_compute; reflexivity
    | apply f8_beq_eq; vm_compute; reflexivity
    | apply (list_beq_eq f8_beq (fun x y => proj1 (f8_beq_eq x y)));
      vm_compute; reflexivity
    | apply (list_beq_eq (list_beq f8_beq)
               (list_beq_eq f8_beq (fun x y => proj1 (f8_beq_eq x y))));
      vm_compute; reflexivity ].

(** ** The arithmetic of [f8] *)

Lemma is_zero_Fin (q : Qc) : is_zero (Fin q) = true <-> q = 0.
Proof.
  simpl. rewrite Qceq_alt. destruct (q ?= 0); split; congruence.
Qed.

Lemma fadd_0_l (x : f8) : fadd (Fin 0) x = x.
Proof. destruct x; simpl; try reflexivity. f_equal. ring. Qed.

Lemma fadd_NaN_r (x : f8) : fadd x NaN = NaN.
Proof. destruct x; reflexivity. Qed.

Lemma Qc_1_gt_0 : (1 ?= 0) = Gt.
Proof. reflexivity. Qed.

Lemma fmul_1_r (x : f8) : fmul x (Fin 1) = x.
Proof.
  destruct x; simpl; unfold inf_scaled; try rewrite Qc_1_gt_0;
    try reflexivity.
  f_equal. ring.
Qed.

Lemma fdiv_Fin (a b : Qc) : b <> 0 -> fdiv (Fin a) (Fin b) = Fin (a / b).
Proof.
  intros Hb. simpl. destruct (b ?= 0) eqn:E; try reflexivity.
  apply Qceq_alt in E. contradiction.
Qed.

(** ** Sums *)

Lemma np_sum_NaN (l : list f8) : In NaN l -> np_sum l = NaN.
Proof.
  induction l as [|x l IH]; simpl; [tauto|].
  intros [->|H]; [reflexivity|].
  rewrite (IH H). apply fadd_NaN_r.
Qed.

Lemma np_sum_Fin (l : list Qc) : np_sum (map Fin l) = Fin (Qc_sum l).
Proof.
  induction l as [|q l IH]; simpl; [reflexivity|].
  fold (np_sum (map Fin l)). rewrite IH. reflexivity.
Qed.

Lemma np_multiply_Fin (vs ws : list Qc) :
  np_sum (np_multiply (map Fin vs) (map Fin ws)) = Fin (Qc_dot vs ws).
Proof.
  revert ws. induction vs as [|v vs IH]; intros [|w ws]; simpl;
    try reflexivity.
  fold (np_sum (np_multiply (map Fin vs) (map Fin ws))). rewrite IH.
  reflexivity.
Qed.

Lemma np_multiply_NaN (a wgt : list f8) :
  length a = length wgt -> In NaN a -> In NaN (np_multiply a wgt).
Proof.
  revert wgt. induction a as [|x a IH]; intros [|w wgt]; simpl;
    try tauto; try discriminate.
  intros Hlen [->|H]; [left; reflexivity|].
  right. apply IH; [congruence|assumption].
Qed.

(** ** What the two aggregation functions compute *)

Lemma is_zero_false_iff (x : f8) : is_zero x = false <-> x <> Fin 0.
Proof.
  destruct x as [| | |q]; simpl; try (split; congruence).
  destruct (q ?= 0) eqn:E.
  - apply Qceq_alt in E. subst q. split; congruence.
  - split; [|reflexivity]. intros _ H. injection H as ->. discriminate.
  - split; [|reflexivity]. intros _ H. injection H as ->. discriminate.
Qed.

Lemma getaverage_shapes (data wghts : list f8) :
  length data <> length wghts -> getaverage data wghts = Raise TypeError.
Proof.
  intros H. unfold getaverage, average.
  apply Nat.eqb_neq in H. rewrite H. reflexivity.
Qed.

Lemma getaverage_eq (data wghts : list f8) :
  length data = length wghts ->
  getaverage data wghts
  = if is_zero (np_sum wghts) then Ok default_fillvals_f8
    else Ok (fdiv (np_sum (np_multiply data wghts)) (np_sum wghts)).
Proof.
  intros H. unfold getaverage, average.
  apply Nat.eqb_eq in H. rewrite H. simpl.
  destruct (is_zero (np_sum wghts)); reflexivity.
Qed.

(** A NaN among the cell values reaches the result of [getaverage]. *)
Lemma getaverage_NaN (data wghts : list f8) :
  length data = length wghts -> In NaN data -> np_sum wghts <> Fin 0 ->
  getaverage data wghts = Ok NaN.
Proof.
  intros Hlen Hnan Hw. rewrite getaverage_eq by assumption.
  apply is_zero_false_iff in Hw. rewrite Hw.
  rewrite (np_sum_NaN (np_multiply data wghts)).
  - reflexivity.
  - apply np_multiply_NaN; assumption.
Qed.

Section masked_sums.
Variables (data wghts : list f8).
Hypothesis Hlen : length data = length wghts.

Local Abbreviation mdata := (masked_array data (map isnan data)).

Lemma ma_weights_mask :
  forallb (fun xm : f8 * bool => snd xm) (ma_weights mdata wghts)
  = forallb isnan data.
Proof.
  revert wghts Hlen.
  induction data as [|x l IH]; intros [|w ws] Hlen; simpl in *;
    try discriminate; try reflexivity.
  rewrite IH by congruence. reflexivity.
Qed.

Lemma ma_multiply_mask :
  forallb (fun xm : f8 * bool => snd xm)
    (ma_multiply mdata (ma_weights mdata wghts))
  = forallb isnan data.
Proof.
  revert wghts Hlen.
  induction data as [|x l IH]; intros [|w ws] Hlen; simpl in *;
    try discriminate; try reflexivity.
  rewrite IH by congruence. rewrite orb_diag. reflexivity.
Qed.

Lemma ma_weights_sum :
  np_sum (ma_filled0 (ma_weights mdata wghts))
  = np_sum (map snd (unmasked data wghts)).
Proof.
  unfold unmasked. revert wghts Hlen.
  induction data as [|x l IH]; intros [|w ws] Hlen; simpl in *;
    try discriminate; try reflexivity.
  fold (np_sum (ma_filled0
                  (ma_weights (masked_array l (map isnan l)) ws))).
  rewrite IH by congruence.
  destruct (isnan x); simpl.
  - apply fadd_0_l.
  - rewrite fmul_1_r. reflexivity.
Qed.

Lemma ma_multiply_sum :
  np_sum (ma_filled0 (ma_multiply mdata (ma_weights mdata wghts)))
  = np_sum (map (fun p : f8 * f8 => fmul (fst p) (snd p))
              (unmasked data wghts)).
Proof.
  unfold unmasked. revert wghts Hlen.
  induction data as [|x l IH]; intros [|w ws] Hlen; simpl in *;
    try discriminate; try reflexivity.
  fold (np_sum (ma_filled0
                  (ma_multiply (masked_array l (map isnan l))
                     (ma_weights (masked_array l (map isnan l)) ws)))).
  rewrite IH by congruence.
  destruct (isnan x); simpl.
  - apply fadd_0_l.
  - rewrite fmul_1_r. reflexivity.
Qed.

(** [np_get_wval] leaves the NaN cells out, and gives the fill value
    when it leaves all of them out. *)
Lemma np_get_wval_eq :
  np_get_wval data wghts
  = if forallb isnan data then Ok default_fillvals_f8
    else Ok (masked_mean data wghts).
Proof.
  unfold np_get_wval, ma_average.
  assert (Hm : length mdata = length wghts).
  { unfold masked_array.
    rewrite length_combine, length_map. lia. }
  apply Nat.eqb_eq in Hm. rewrite Hm. simpl.
  unfold ma_sum. rewrite ma_multiply_mask, ma_weights_mask.
  destruct (forallb isnan data); [reflexivity|]. simpl.
  rewrite ma_multiply_sum, ma_weights_sum. reflexivity.
Qed.
End masked_sums.

Lemma np_get_wval_shapes (data wghts : list f8) :
  length data <> length wghts -> np_get_wval data wghts = Raise TypeError.
Proof.
  intros H. unfold np_get_wval, ma_average, masked_array.
  rewrite length_combine, length_map, Nat.min_id.
  apply Nat.eqb_neq in H. rewrite H. reflexivity.
Qed.

Lemma unmasked_no_NaN (data wghts : list f8) :
  (forall x, In x data -> isnan x = false) ->
  unmasked data wghts = combine data wghts.
Proof.
  unfold unmasked. revert wghts.
  induction data as [|x l IH]; intros [|w ws] H; simpl; try reflexivity.
  rewrite (H x) by (left; reflexivity). simpl.
  rewrite IH; [reflexivity|]. intros y Hy. apply H. right. exact Hy.
Qed.

Lemma combine_snd (data wghts : list f8) :
  length data = length wghts -> map snd (combine data wghts) = wghts.
Proof.
  revert wghts. induction data as [|x l IH]; intros [|w ws] H; simpl in *;
    try discriminate; try reflexivity.
  rewrite IH by congruence. reflexivity.
Qed.

Lemma combine_multiply (data wghts : list f8) :
  map (fun p : f8 * f8 => fmul (fst p) (snd p)) (combine data wghts)
  = np_multiply data wghts.
Proof.
  revert wghts. induction data as [|x l IH]; intros [|w ws]; simpl;
    try reflexivity.
  rewrite IH. reflexivity.
Qed.

Lemma forallb_isnan_no_NaN (data : list f8) :
  (forall x, In x data -> isnan x = false) -> data <> [] ->
  forallb isnan data = false.
Proof.
  destruct data as [|x l]; [congruence|]. intros H _. simpl.
  rewrite (H x) by (left; reflexivity). reflexivity.
Qed.

(** Without NaN and with a total weight that is not zero the two functions
    agree. *)
Lemma getaverage_np_get_wval (data wghts : list f8) :
  (forall x, In x data -> isnan x = false) -> np_sum wghts <> Fin 0 ->
  getaverage data wghts = np_get_wval data wghts.
Proof.
  intros Hnan Hw.
  destruct (Nat.eq_dec (length data) (length wghts)) as [Hlen|Hlen].
  - rewrite getaverage_eq, np_get_wval_eq by assumption.
    unfold masked_mean. rewrite unmasked_no_NaN by assumption.
    rewrite combine_snd, combine_multiply by assumption.
    apply is_zero_false_iff in Hw. rewrite Hw.
    rewrite forallb_isnan_no_NaN; [reflexivity|assumption|].
    intros ->. destruct wghts; [|discriminate].
    discriminate Hw.
  - rewrite getaverage_shapes, np_get_wval_shapes by assumption.
    reflexivity.
Qed.

(** ** The per-unit aggregation of the day loop *)

(** C1, evaluated on the group of cell values [[nan, 2.0]] with weights
    [[1.0, 1.0]]: the [getaverage] that the day loop calls does not leave
    the NaN cell out, its result is NaN, where the weighted average over the
    cells that are not NaN is 2.0, which is also what [np_get_wval] of
    [helper.py] returns. *)
Theorem getaverage_keeps_NaN_cells :
  getaverage [NaN; of_Z 2] [of_Z 1; of_Z 1] = Ok NaN
  /\ masked_mean [NaN; of_Z 2] [of_Z 1; of_Z 1] = of_Z 2
  /\ np_get_wval [NaN; of_Z 2] [of_Z 1; of_Z 1] = Ok (of_Z 2).
Proof.
  split; [|split].
  - apply getaverage_NaN; [reflexivity|left; reflexivity|].
    apply is_zero_false_iff. reflexivity.
  - f8_decide.
  - f8_decide.
Qed.

(** C2, evaluated on a group whose only cell value is NaN, with weight
    1.0: the [getaverage] of the day loop returns NaN and not the fill
    value, which [np_get_wval] returns; so the run of the specification's
    example stores NaN for the second unit on day 0.  With a total weight
    of zero, and for the empty group, [getaverage] does return the fill
    value, which is neither zero nor NaN. *)
Theorem getaverage_all_NaN_is_not_fill :
  getaverage [NaN] [of_Z 1] = Ok NaN
  /\ getaverage [NaN] [of_Z 1] <> Ok default_fillvals_f8
  /\ np_get_wval [NaN] [of_Z 1] = Ok default_fillvals_f8
  /\ (exists self,
        run_weights two_days_one_NaN = Ok self
        /\ ppt (np self) = [[of_Z 1; NaN]; [of_Z 3; of_Z 4]])
  /\ getaverage [] [] = Ok default_fillvals_f8
  /\ getaverage [of_Z 1; of_Z 2] [of_Z 0; of_Z 0] = Ok default_fillvals_f8
  /\ is_zero default_fillvals_f8 = false
  /\ isnan default_fillvals_f8 = false.
Proof.
  assert (H : getaverage [NaN] [of_Z 1] = Ok NaN).
  { apply getaverage_NaN; [reflexivity|left; reflexivity|].
    apply is_zero_false_iff. reflexivity. }
  split; [exact H|]. split; [rewrite H; discriminate|].
  split; [reflexivity|].
  split; [|repeat split].
  eexists. split; [vm_compute; reflexivity|]. f8_decide.
Qed.

(** ** Rounding: [getaverage] on binary64 numbers *)

Section binary64.
Import Floats.
Local Open Scope float_scope.

(** The length of the array is fuel enough for [pairwise_sum]: any larger
    amount gives the same sum. *)
Lemma pairwise_sum_fuel (fuel : nat) :
  forall (fuel' : nat) (a : list float),
    (length a <= fuel)%nat -> (length a <= fuel')%nat ->
    Binary64.pairwise_sum fuel a = Binary64.pairwise_sum fuel' a.
Proof.
  induction fuel as [|fuel IH]; intros [|fuel'] a H H'; try reflexivity.
  - destruct a; [reflexivity|simpl in H; lia].
  - destruct a; [reflexivity|simpl in H'; lia].
  - cbn [Binary64.pairwise_sum].
    destruct (Nat.ltb _ 8); [reflexivity|].
    destruct (Nat.leb _ 128) eqn:E; [reflexivity|].
    apply Nat.leb_gt in E.
    assert (Hn : (1 <= length a / 2 - (length a / 2) mod 8 < length a)%nat).
    { pose proof (Nat.div_mod_eq (length a) 2) as H0.
      assert (H1 : (length a mod 2 < 2)%nat)
        by (apply Nat.mod_upper_bound; discriminate).
      assert (H2 : ((length a / 2) mod 8 < 8)%nat)
        by (apply Nat.mod_upper_bound; discriminate).
      lia. }
    f_equal; apply IH; rewrite ?length_firstn, ?length_skipn; lia.
Qed.

Lemma Prim2SF_0 : Prim2SF 0 = S754_zero false.
Proof. reflexivity. Qed.

(** Two numbers added to 0.0 give the same sum in both orders. *)
Lemma add_0_swap (x y : float) : (0 + x) + y = (0 + y) + x.
Proof.
  apply Prim2SF_inj. rewrite !add_spec, Prim2SF_0.
  destruct (Prim2SF x) as [s|s| |s m e], (Prim2SF y) as [s'|s'| |s' m' e'];
    try reflexivity; try (destruct s, s'; reflexivity);
    try (destruct s; reflexivity); try (destruct s'; reflexivity).
  cbn [SF64add SFadd]. rewrite (Z.min_comm e' e), Z.add_comm. reflexivity.
Qed.

Lemma np_sum_swap (x y : float) :
  Binary64.np_sum [x; y] = Binary64.np_sum [y; x].
Proof. unfold Binary64.np_sum. cbn. rewrite add_0_swap. reflexivity. Qed.

(** A number above 0.0 is not equal to 0.0. *)
Lemma ltb_0_eqb (x : float) : (0 <? x) = true -> (x =? 0) = false.
Proof.
  rewrite ltb_spec, eqb_spec, Prim2SF_0.
  destruct (Prim2SF x) as [s|s| |s m e]; try discriminate; cbn;
    destruct s; try discriminate; reflexivity.
Qed.

(** C6 as stated fails.  Three cells at 0.1 with the weights 1, 1, 1: no
    cell is NaN, the total weight is 3, the weighted mean of three equal
    values is that value, and [getaverage] returns the next double above
    it, 0.10000000000000002.  Two cells at 1e308 with the weights 1, 1:
    their mean is 1e308, and [getaverage] returns infinity. *)
Lemma getaverage_rounds_and_overflows :
  (0 <? Binary64.np_sum [1; 1; 1]) = true
  /\ Binary64.getaverage [Binary64.tenth; Binary64.tenth; Binary64.tenth]
       [1; 1; 1]
     = Ok (next_up Binary64.tenth)
  /\ (Binary64.tenth <? next_up Binary64.tenth) = true
  /\ (0 <? Binary64.np_sum [1; 1]) = true
  /\ Binary64.getaverage [Binary64.huge; Binary64.huge] [1; 1] = Ok infinity
  /\ (Binary64.huge <? infinity) = true.
Proof. repeat split. Qed.

(** C6, amended: for a weight group whose total weight, as [getaverage]
    adds it up, is above zero, the per-unit aggregation is the quotient of
    the sum of the [value_i * weight_i] by the sum of the [weight_i], where
    each product, each addition and the division round to a double; cell
    values 10, 20 with weights 1, 3 give 17.5. *)
Theorem getaverage_quotient_of_rounded_sums :
  (forall data wghts : list float,
      length data = length wghts ->
      (0 <? Binary64.np_sum wghts) = true ->
      Binary64.getaverage data wghts
      = Ok (Binary64.np_sum (Binary64.np_multiply data wghts)
            / Binary64.np_sum wghts))
  /\ Binary64.getaverage [10; 20] [1; 3] = Ok 17.5.
Proof.
  split; [|reflexivity].
  intros data wghts Hlen Hpos.
  unfold Binary64.getaverage, Binary64.average.
  rewrite Hlen, Nat.eqb_refl. cbn [negb].
  rewrite (ltb_0_eqb _ Hpos). reflexivity.
Qed.

Lemma getaverage_quotient_of_rounded_sums_witness :
  length [Binary64.tenth; 20] = length [1; 3]
  /\ (0 <? Binary64.np_sum [1; 3]) = true
  /\ Binary64.getaverage [Binary64.tenth; 20] [1; 3]
     = Ok (Binary64.np_sum (Binary64.np_multiply [Binary64.tenth; 20] [1; 3])
           / Binary64.np_sum [1; 3]).
Proof.
  split; [reflexivity|]. split; [reflexivity|].
  apply (proj1 getaverage_quotient_of_rounded_sums); reflexivity.
Defined.

(** C7 as stated fails.  The pairs (1, 1e16), (2, 1), (3, -1e16): in this
    order the weights add up to 0.0, since 1e16 + 1 rounds to 1e16, and
    [getaverage] returns the fill value; with the last two pairs exchanged
    the weights add up to 1.0 and [getaverage] returns -2e16. *)
Lemma getaverage_order_matters :
  Permutation Binary64.cancelling_pairs Binary64.cancelling_pairs_reordered
  /\ Binary64.getaverage (map fst Binary64.cancelling_pairs)
       (map snd Binary64.cancelling_pairs)
     = Ok Binary64.default_fillvals_f8
  /\ Binary64.getaverage (map fst Binary64.cancelling_pairs_reordered)
       (map snd Binary64.cancelling_pairs_reordered)
     = Ok (-2e16)
  /\ (-2e16 =? Binary64.default_fillvals_f8) = false.
Proof.
  split; [apply perm_skip, perm_swap|]. repeat split.
Qed.

(** C7, amended: the order of the pairs of a group of at most two pairs
    does not change the per-unit aggregation, not by a bit.  (From three
    pairs on the two sums, and with them the result, depend on the order,
    as above.) *)
Theorem getaverage_Permutation_of_two_pairs (l l' : list (float * float)) :
  Permutation l l' -> (length l <= 2)%nat ->
  Binary64.getaverage (map fst l) (map snd l)
  = Binary64.getaverage (map fst l') (map snd l').
Proof.
  intros HP Hlen.
  destruct l as [|[a w] [|[b u] [|]]]; [| | |simpl in Hlen; lia].
  - apply Permutation_nil in HP. subst l'. reflexivity.
  - apply Permutation_length_1_inv in HP. subst l'. reflexivity.
  - apply Permutation_length_2_inv in HP.
    destruct HP as [->| ->]; [reflexivity|].
    unfold Binary64.getaverage, Binary64.average.
    cbn [map fst snd length Nat.eqb negb Binary64.np_multiply].
    rewrite (np_sum_swap w u), (np_sum_swap (a * w) (b * u)). reflexivity.
Qed.

Lemma getaverage_Permutation_of_two_pairs_witness :
  Permutation [(Binary64.tenth, 1); (Binary64.seven_tenths, 2)]
              [(Binary64.seven_tenths, 2); (Binary64.tenth, 1)]
  /\ (length [(Binary64.tenth, 1); (Binary64.seven_tenths, 2)] <= 2)%nat
  /\ Binary64.getaverage [Binary64.tenth; Binary64.seven_tenths] [1; 2]
     = Binary64.getaverage [Binary64.seven_tenths; Binary64.tenth] [2; 1]
  /\ Binary64.getaverage [Binary64.tenth; Binary64.seven_tenths] [1; 2]
     = Ok 0.5.
Proof.
  assert (HP : Permutation [(Binary64.tenth, 1); (Binary64.seven_tenths, 2)]
                           [(Binary64.seven_tenths, 2); (Binary64.tenth, 1)])
    by apply perm_swap.
  split; [exact HP|]. split; [apply le_n|].
  split; [exact (getaverage_Permutation_of_two_pairs _ _ HP (le_n 2))|].
  reflexivity.
Defined.
End binary64.

(** C8 as stated fails: with the one cell value NaN and the weight 0.0
    both functions return the fill value. *)
Lemma getaverage_np_get_wval_agree_on_NaN :
  In NaN [NaN]
  /\ getaverage [NaN] [of_Z 0] = np_get_wval [NaN] [of_Z 0].
Proof.
  split; [left; reflexivity|reflexivity].
Qed.

(** C8, amended: [getaverage] and [np_get_wval] return equal results for
    every input whose cell values contain no NaN and whose total weight is
    not zero.  When the shapes agree, some cell value is NaN and the total
    weight is not zero, [getaverage] returns NaN, and [np_get_wval] returns
    the fill value if every cell value is NaN and else the weighted mean of
    the cells that are not NaN; the two then differ unless that mean is
    itself NaN. *)
Theorem getaverage_vs_np_get_wval :
  (forall data wghts : list f8,
      (forall x, In x data -> isnan x = false) -> np_sum wghts <> Fin 0 ->
      getaverage data wghts = np_get_wval data wghts)
  /\ (forall data wghts : list f8,
      length data = length wghts -> In NaN data -> np_sum wghts <> Fin 0 ->
      getaverage data wghts = Ok NaN
      /\ np_get_wval data wghts
         = (if forallb isnan data then Ok default_fillvals_f8
            else Ok (masked_mean data wghts))
      /\ (getaverage data wghts <> np_get_wval data wghts
          <-> forallb isnan data = true \/ masked_mean data wghts <> NaN)).
Proof.
  split; [exact getaverage_np_get_wval|].
  intros data wghts Hlen Hnan Hw.
  rewrite (getaverage_NaN data wghts Hlen Hnan Hw).
  rewrite (np_get_wval_eq data wghts Hlen).
  split; [reflexivity|]. split; [reflexivity|].
  destruct (forallb isnan data).
  - split; [intros _; left; reflexivity|]. intros _. discriminate.
  - split.
    + intros H. right. intros E. apply H. rewrite E. reflexivity.
    + intros [H|H] E; [discriminate|]. apply H. congruence.
Qed.

Lemma getaverage_vs_np_get_wval_witness :
  (forall x, In x [of_Z 10; of_Z 20] -> isnan x = false)
  /\ np_sum [of_Z 1; of_Z 3] <> Fin 0
  /\ getaverage [of_Z 10; of_Z 20] [of_Z 1; of_Z 3]
     = np_get_wval [of_Z 10; of_Z 20] [of_Z 1; of_Z 3]
  /\ length [NaN; of_Z 2] = length [of_Z 1; of_Z 1]
  /\ In NaN [NaN; of_Z 2]
  /\ np_sum [of_Z 1; of_Z 1] <> Fin 0
  /\ getaverage [NaN; of_Z 2] [of_Z 1; of_Z 1]
     <> np_get_wval [NaN; of_Z 2] [of_Z 1; of_Z 1].
Proof.
  assert (H1 : forall x, In x [of_Z 10; of_Z 20] -> isnan x = false).
  { intros x [<-|[<-|[]]]; reflexivity. }
  assert (H2 : np_sum [of_Z 1; of_Z 3] <> Fin 0).
  { apply is_zero_false_iff. reflexivity. }
  assert (H3 : np_sum [of_Z 1; of_Z 1] <> Fin 0).
  { apply is_zero_false_iff. reflexivity. }
  assert (H4 : In NaN [NaN; of_Z 2]) by (left; reflexivity).
  split; [exact H1|]. split; [exact H2|].
  split; [exact (proj1 getaverage_vs_np_get_wval _ _ H1 H2)|].
  split; [reflexivity|]. split; [exact H4|]. split; [exact H3|].
  destruct (proj2 getaverage_vs_np_get_wval [NaN; of_Z 2] [of_Z 1; of_Z 1]
              eq_refl H4 H3) as (_ & _ & Hiff).
  apply Hiff. right. intros E. vm_compute in E. discriminate E.
Defined.

(** ** The weight table *)

(** C3 as stated fails: a row of weight -0.1, and a cell index 100.5, are
    accepted when the weight table is built. *)
Lemma weight_table_accepts_negative_weight :
  getattr_values negative_weights_file "w"
    = Ok (FloatCol [of_Q (-0.1); of_Q 0.5])
  /\ weight_table negative_weights_file
     = Ok (GroupBy negative_weights_file "hru_id_nat")
  /\ weight_table fractional_index_file
     = Ok (GroupBy fractional_index_file "hru_id_nat").
Proof. repeat split. Qed.

(** C3, amended: building the weight table from the frame that
    [pd.read_csv] has returned checks neither the weights nor the cell
    indices.  It fails exactly when the frame has fewer than two columns,
    with [IndexError], and otherwise succeeds, grouping the frame by its
    second column. *)
Theorem weight_table_needs_two_columns (wght_uofi : DataFrame) :
  ((length (columns wght_uofi) < 2)%nat ->
   weight_table wght_uofi = Raise IndexError)
  /\ ((2 <= length (columns wght_uofi))%nat ->
      exists wghts_id,
        nth_error (columns wght_uofi) 1 = Some wghts_id
        /\ weight_table wght_uofi = Ok (GroupBy wght_uofi wghts_id)).
Proof.
  unfold weight_table. split; intros H.
  - destruct (nth_error (columns wght_uofi) 1) eqn:E; [|reflexivity].
    assert (nth_error (columns wght_uofi) 1 <> None) as Hn by congruence.
    apply nth_error_Some in Hn. lia.
  - destruct (nth_error (columns wght_uofi) 1) as [wghts_id|] eqn:E.
    + exists wghts_id. split; reflexivity.
    + apply nth_error_None in E. lia.
Qed.

Lemma weight_table_needs_two_columns_witness :
  (length (columns [("hru_id_nat", IntCol [1%Z])]) < 2)%nat
  /\ weight_table [("hru_id_nat", IntCol [1%Z])] = Raise IndexError
  /\ (2 <= length (columns negative_weights_file))%nat
  /\ exists wghts_id,
       nth_error (columns negative_weights_file) 1 = Some wghts_id
       /\ weight_table negative_weights_file
          = Ok (GroupBy negative_weights_file wghts_id).
Proof.
  assert (H1 : (length (columns [("hru_id_nat", IntCol [1%Z])]) < 2)%nat)
    by (simpl; lia).
  assert (H2 : (2 <= length (columns negative_weights_file))%nat)
    by (simpl; lia).
  split; [exact H1|].
  split; [exact (proj1 (weight_table_needs_two_columns _) H1)|].
  split; [exact H2|].
  exact (proj2 (weight_table_needs_two_columns _) H2).
Defined.

(** ** The shapes of the retrieved grid *)

(** C4 as stated fails: with two days retrieved and one expected,
    [initialize] returns [False], the day slice is obtained, and
    [run_weights] computes the values of both units. *)
Lemma day_mismatch_raises_nothing :
  initialize one_day_asked = Ok (with_shapes 2 2 1 one_day_asked, false)
  /\ day_slice one_day_asked "ppt" 0 = Ok [of_Z 1; of_Z 2]
  /\ exists self,
       run_weights (with_shapes 2 2 1 one_day_asked) = Ok self
       /\ ppt (np self) = [[of_Z 1; of_Z 2]].
Proof.
  split; [reflexivity|]. split; [reflexivity|].
  eexists. split; [vm_compute; reflexivity|].
  f8_decide.
Qed.

(** C4, amended: a retrieved grid whose day extent differs from the
    expected [numdays] makes [initialize] return [False]; nothing is
    raised, and the lat and lon extents are recorded without being compared
    with anything.  A day slice is obtained for every day index within the
    retrieved grid of the variable, whatever shape is expected, and raises
    [IndexError] for a day index beyond it. *)
Theorem shapes_are_recorded_not_checked :
  (forall self day lat lon,
      sizes (ds self) = Ok (day, lat, lon) ->
      initialize self
      = Ok (with_shapes day lon lat self, (day =? numdays self)%nat))
  /\ (forall self tvar day name values,
      dict_getitem gmss_vars tvar = Ok name ->
      ds_getitem (ds self) name = Ok values ->
      (forall grid, nth_error values day = Some grid ->
                    day_slice self tvar day = Ok (concat grid))
      /\ ((length values <= day)%nat ->
          day_slice self tvar day = Raise IndexError)).
Proof.
  split.
  - intros self day lat lon H. unfold initialize. rewrite H. simpl.
    destruct (day =? numdays self)%nat; reflexivity.
  - intros self tvar day name values Hn Hv. unfold day_slice.
    rewrite Hn. simpl. rewrite Hv. simpl. split.
    + intros grid ->. reflexivity.
    + intros H. apply nth_error_None in H. rewrite H. reflexivity.
Qed.

Lemma shapes_are_recorded_not_checked_witness :
  sizes (ds one_day_asked) = Ok (2, 1, 2)%nat
  /\ initialize one_day_asked = Ok (with_shapes 2 2 1 one_day_asked, false)
  /\ day_slice one_day_asked "ppt" 1 = Ok (concat [[of_Z 3; of_Z 4]])
  /\ day_slice one_day_asked "ppt" 2 = Raise IndexError.
Proof.
  assert (Hs : sizes (ds one_day_asked) = Ok (2, 1, 2)%nat) by reflexivity.
  split; [exact Hs|].
  split; [exact (proj1 shapes_are_recorded_not_checked _ _ _ _ Hs)|].
  destruct (proj2 shapes_are_recorded_not_checked one_day_asked "ppt" 1%nat
              "precipitation_amount"
              [ [[of_Z 1; of_Z 2]]; [[of_Z 3; of_Z 4]] ] eq_refl eq_refl)
    as [H1 _].
  destruct (proj2 shapes_are_recorded_not_checked one_day_asked "ppt" 2%nat
              "precipitation_amount"
              [ [[of_Z 1; of_Z 2]]; [[of_Z 3; of_Z 4]] ] eq_refl eq_refl)
    as [_ H2].
  split; [exact (H1 _ eq_refl)|].
  apply H2. simpl. lia.
Defined.

(** ** The loop over the target units *)

Lemma hru_body_table (self : FpoNHM) (unique_hru_ids : DataFrameGroupBy)
    (d_flt : pervar (list f8)) (i : nat) (index_i : Z) (d : pervar (list f8)) :
  hru_body self unique_hru_ids d_flt i index_i d
  = hru_body_by_table self unique_hru_ids d_flt i index_i d.
Proof. reflexivity. Qed.

Lemma gmvar_eq_dec (u v : gmvar) : {u = v} + {u <> v}.
Proof. decide equality. Defined.

Lemma pv_get_set_same {A : Type} (v : gmvar) (x : A) (p : pervar A) :
  pv_get v (pv_set v x p) = x.
Proof. destruct v; reflexivity. Qed.

Lemma pv_get_set_other {A : Type} (u v : gmvar) (x : A) (p : pervar A) :
  u <> v -> pv_get u (pv_set v x p) = pv_get u p.
Proof.
  intros H. destruct u, v; try reflexivity; contradiction H; reflexivity.
Qed.

Lemma all_gmvars_complete (v : gmvar) : In v all_gmvars.
Proof. destruct v; simpl; tauto. Qed.

Lemma all_gmvars_NoDup : NoDup all_gmvars.
Proof.
  unfold all_gmvars.
  repeat (constructor; [simpl; intros H; repeat destruct H as [H|H];
                        try discriminate H; try contradiction|]).
  constructor.
Qed.

Lemma store_length {A : Type} (a : list A) (i : nat) (v : A) :
  length (store a i v) = length a.
Proof.
  revert i. induction a as [|x a IH]; intros [|i]; simpl; auto.
Qed.

Lemma store_same {A : Type} (a : list A) (i : nat) (v : A) :
  (i < length a)%nat -> nth_error (store a i v) i = Some v.
Proof.
  revert i. induction a as [|x a IH]; intros [|i] H; simpl in *;
    try lia; [reflexivity|].
  apply IH. lia.
Qed.

Lemma store_other {A : Type} (a : list A) (i j : nat) (v : A) :
  i <> j -> nth_error (store a i v) j = nth_error a j.
Proof.
  revert i j. induction a as [|x a IH]; intros [|i] [|j] H; simpl;
    try reflexivity; try contradiction.
  apply IH. congruence.
Qed.

Lemma store_Forall {A : Type} (P : A -> Prop) (a : list A) (i : nat) (v : A) :
  Forall P a -> P v -> Forall P (store a i v).
Proof.
  intros H Hv. revert i. induction H as [|x a Hx Ha IH]; intros [|i];
    simpl; constructor; auto.
Qed.

Section unit_loop.
Variables (self : FpoNHM) (unique_hru_ids : DataFrameGroupBy).
Variable d_flt : pervar (list f8).

Lemma hru_var_Ok (tgid : column) (tw : list f8) (i : nat) (v : gmvar)
    (d d1 : pervar (list f8)) :
  hru_var self tgid tw d_flt i v d = Ok d1 ->
  (in_vars (tvar_of v) self = false /\ d1 = d)
  \/ (in_vars (tvar_of v) self = true
      /\ exists cells x,
           take (pv_get v d_flt) tgid = Ok cells
           /\ getaverage (convert (variable_offset v) cells) tw = Ok x
           /\ d1 = pv_set v (store (pv_get v d) i x) d).
Proof.
  unfold hru_var. destruct (in_vars (tvar_of v) self).
  - destruct (take (pv_get v d_flt) tgid) as [cells|]; [simpl|discriminate].
    destruct (getaverage _ tw) as [x|] eqn:E; [simpl|discriminate].
    intros H. injection H as <-. right. split; [reflexivity|].
    exists cells, x. auto.
  - intros H. injection H as <-. left. auto.
Qed.

Lemma foldM_hru_var_Ok (tgid : column) (tw : list f8) (i : nat)
    (vs : list gmvar) :
  forall d d' : pervar (list f8),
    foldM (hru_var self tgid tw d_flt i) vs d = Ok d' ->
    forall v,
      (~ In v vs \/ in_vars (tvar_of v) self = false ->
       pv_get v d' = pv_get v d)
      /\ (In v vs -> NoDup vs -> in_vars (tvar_of v) self = true ->
          exists cells x,
            take (pv_get v d_flt) tgid = Ok cells
            /\ getaverage (convert (variable_offset v) cells) tw = Ok x
            /\ pv_get v d' = store (pv_get v d) i x).
Proof.
  induction vs as [|u vs IH]; simpl; intros d d' H v.
  - injection H as <-. split; [reflexivity|tauto].
  - destruct (hru_var self tgid tw d_flt i u d) as [d1|] eqn:E;
      [simpl in H|discriminate H].
    destruct (IH d1 d' H v) as [IHa IHb].
    apply hru_var_Ok in E.
    split.
    + intros Hv. rewrite IHa by tauto.
      destruct E as [[_ ->]|[Hu (cells & x & _ & _ & ->)]]; [reflexivity|].
      apply pv_get_set_other. intros ->.
      destruct Hv as [Hv|Hv]; [apply Hv; left; reflexivity|congruence].
    + intros Hin Hnd Hv. inversion Hnd as [|u' vs' Hnotin Hnd']; subst.
      destruct (gmvar_eq_dec u v) as [->|Hne].
      * destruct E as [[Hu _]|[_ (cells & x & Ht & Hg & ->)]];
          [congruence|].
        exists cells, x. split; [exact Ht|]. split; [exact Hg|].
        destruct (IH _ d' H v) as [IHa' _].
        rewrite IHa' by tauto. apply pv_get_set_same.
      * destruct Hin as [Hin|Hin]; [contradiction|].
        destruct (IHb Hin Hnd' Hv) as (cells & x & Ht & Hg & Hd).
        exists cells, x. split; [exact Ht|]. split; [exact Hg|].
        rewrite Hd. f_equal.
        destruct E as [[_ ->]|[_ (cells' & x' & _ & _ & ->)]];
          [reflexivity|].
        apply pv_get_set_other. congruence.
Qed.

Lemma hru_body_Ok (i : nat) (index_i : Z) (d d' : pervar (list f8)) :
  hru_body self unique_hru_ids d_flt i index_i d = Ok d' ->
  forall v,
    (in_vars (tvar_of v) self = false -> pv_get v d' = pv_get v d)
    /\ (in_vars (tvar_of v) self = true ->
        exists x,
          unit_value unique_hru_ids (pv_get v d_flt) v index_i = Ok x
          /\ pv_get v d' = store (pv_get v d) i x).
Proof.
  rewrite hru_body_table. unfold hru_body_by_table, unit_value.
  destruct (get_group unique_hru_ids index_i) as [rows|];
    [simpl|discriminate].
  destruct (getattr_values rows "w") as [w|]; [simpl|discriminate].
  destruct (getattr_values rows "grid_ids") as [tgid|]; [simpl|discriminate].
  intros H v.
  destruct (foldM_hru_var_Ok tgid (col_floats w) i all_gmvars d d' H v)
    as [Ha Hb].
  split.
  - intros Hv. apply Ha. right. exact Hv.
  - intros Hv.
    destruct (Hb (all_gmvars_complete v) all_gmvars_NoDup Hv)
      as (cells & x & Ht & Hg & Hd).
    exists x. rewrite Ht. simpl. split; [exact Hg|exact Hd].
Qed.

Lemma hru_loop_Ok (index : list Z) :
  forall (i0 : nat) (d d' : pervar (list f8)),
    hru_loop self unique_hru_ids d_flt i0 index d = Ok d' ->
    forall v,
      length (pv_get v d') = length (pv_get v d)
      /\ (in_vars (tvar_of v) self = false -> pv_get v d' = pv_get v d)
      /\ (in_vars (tvar_of v) self = true ->
          (forall j, (j < i0)%nat ->
                     nth_error (pv_get v d') j = nth_error (pv_get v d) j)
          /\ (forall j index_i,
                 nth_error index j = Some index_i ->
                 (i0 + j < length (pv_get v d))%nat ->
                 exists x,
                   unit_value unique_hru_ids (pv_get v d_flt) v index_i = Ok x
                   /\ nth_error (pv_get v d') (i0 + j) = Some x)).
Proof.
  induction index as [|k index IH]; simpl; intros i0 d d' H v.
  - injection H as <-. split; [reflexivity|]. split; [reflexivity|].
    intros _. split; [reflexivity|]. intros [|j] ? Hj; discriminate Hj.
  - destruct (hru_body self unique_hru_ids d_flt i0 k d) as [d1|] eqn:E;
      [simpl in H|discriminate H].
    destruct (hru_body_Ok _ _ _ _ E v) as [Ba Bb].
    destruct (IH _ _ _ H v) as (Ilen & Ia & Ib).
    destruct (in_vars (tvar_of v) self) eqn:Hv.
    + destruct (Bb eq_refl) as (x & Hx & Hd1).
      destruct (Ib eq_refl) as [Ilow Ihigh].
      assert (Hlen1 : length (pv_get v d1) = length (pv_get v d))
        by (rewrite Hd1; apply store_length).
      split; [congruence|]. split; [discriminate|].
      intros _. split.
      * intros j Hj. rewrite Ilow by lia. rewrite Hd1.
        apply store_other. lia.
      * intros [|j] index_i Hj Hb; simpl in Hj.
        { injection Hj as <-. exists x. split; [exact Hx|].
          rewrite Nat.add_0_r in *. rewrite Ilow by lia.
          rewrite Hd1. apply store_same. exact Hb. }
        { replace (i0 + S j)%nat with (S i0 + j)%nat by lia.
          apply Ihigh; [exact Hj|]. rewrite Hlen1. lia. }
    + rewrite (Ia eq_refl), (Ba eq_refl).
      split; [reflexivity|]. split; [reflexivity|discriminate].
Qed.
End unit_loop.

(** ** The unit conversion of the temperatures *)

(** C5 as stated fails: the offset is no parameter of the variable.
    [getaverage] is given the cell values and the weights, and nothing of
    the variable: on the cell value 283.5 it returns 283.5.  That a run
    stores 10.0 for tmax and for tmin on that cell, and 283.5 for ppt,
    comes from the argument of the two calls, which is written
    [d_flt_tmax[tgid]-273.5] and [d_flt_tmin[tgid]-273.5]. *)
Lemma getaverage_is_given_no_offset :
  getaverage [of_Q 283.5] [of_Z 1] = Ok (of_Q 283.5)
  /\ exists self,
       run_weights warm_day = Ok self
       /\ tmax (np self) = [[of_Z 10]]
       /\ tmin (np self) = [[of_Z 10]]
       /\ ppt (np self) = [[of_Q 283.5]].
Proof.
  split; [f8_decide|].
  eexists. split; [vm_compute; reflexivity|].
  split; [f8_decide|]. split; f8_decide.
Qed.

(** C5, amended: what the loop body stores for a variable that is asked
    for is [getaverage] of the unit's cell values and weights, where for
    tmax and for tmin, and only for those, the literal 273.5 of the call is
    subtracted from each cell value first, and the cell values of the other
    variables are passed as they are.  The subtraction turns 283.5 into
    10.0 and leaves NaN as NaN. *)
Theorem offset_is_subtracted_in_two_calls :
  (forall self unique_hru_ids d_flt i index_i d d' v,
      hru_body self unique_hru_ids d_flt i index_i d = Ok d' ->
      in_vars (tvar_of v) self = true ->
      exists weight_id_rows w tgid cells x,
        get_group unique_hru_ids index_i = Ok weight_id_rows
        /\ getattr_values weight_id_rows "w" = Ok w
        /\ getattr_values weight_id_rows "grid_ids" = Ok tgid
        /\ take (pv_get v d_flt) tgid = Ok cells
        /\ getaverage
             match v with
             | Vtmax | Vtmin => np_sub_scalar cells (of_Q 273.5)
             | _ => cells
             end (col_floats w) = Ok x
        /\ pv_get v d' = store (pv_get v d) i x)
  /\ np_sub_scalar [of_Q 283.5; NaN] (of_Q 273.5) = [of_Z 10; NaN]
  /\ exists d',
       hru_body warm_day (GroupBy one_unit_weights "hru_id_nat")
         (pv_const [of_Q 283.5]) 0 7 (pv_const [Fin 0]) = Ok d'
       /\ tmax d' = [of_Z 10]
       /\ tmin d' = [of_Z 10]
       /\ ppt d' = [of_Q 283.5].
Proof.
  split; [|split].
  - intros self unique_hru_ids d_flt i index_i d d' v H Hv.
    destruct (proj2 (hru_body_Ok _ _ _ _ _ _ _ H v) Hv) as (x & Hx & Hd).
    unfold unit_value in Hx.
    destruct (get_group unique_hru_ids index_i) as [rows|] eqn:E1;
      [cbn [bind] in Hx|discriminate Hx].
    destruct (getattr_values rows "w") as [w|] eqn:E2;
      [cbn [bind] in Hx|discriminate Hx].
    destruct (getattr_values rows "grid_ids") as [tgid|] eqn:E3;
      [cbn [bind] in Hx|discriminate Hx].
    destruct (take (pv_get v d_flt) tgid) as [cells|] eqn:E4;
      [cbn [bind] in Hx|discriminate Hx].
    exists rows, w, tgid, cells, x.
    split; [reflexivity|]. split; [exact E2|]. split; [exact E3|].
    split; [exact E4|]. split; [|exact Hd].
    rewrite <- Hx. destruct v; reflexivity.
  - f8_decide.
  - eexists. split; [vm_compute; reflexivity|].
    split; [f8_decide|]. split; f8_decide.
Qed.

Lemma offset_is_subtracted_in_two_calls_witness :
  exists d',
    hru_body warm_day (GroupBy one_unit_weights "hru_id_nat")
      (pv_const [of_Q 283.5]) 0 7 (pv_const [Fin 0]) = Ok d'
    /\ in_vars (tvar_of Vtmin) warm_day = true
    /\ exists weight_id_rows w tgid cells x,
         get_group (GroupBy one_unit_weights "hru_id_nat") 7
         = Ok weight_id_rows
         /\ getattr_values weight_id_rows "w" = Ok w
         /\ getattr_values weight_id_rows "grid_ids" = Ok tgid
         /\ take [of_Q 283.5] tgid = Ok cells
         /\ getaverage (np_sub_scalar cells (of_Q 273.5)) (col_floats w)
            = Ok x
         /\ tmin d' = store [Fin 0] 0 x.
Proof.
  assert (H : exists d',
             hru_body warm_day (GroupBy one_unit_weights "hru_id_nat")
               (pv_const [of_Q 283.5]) 0 7 (pv_const [Fin 0]) = Ok d')
    by (eexists; vm_compute; reflexivity).
  destruct H as [d' H]. exists d'. split; [exact H|].
  split; [reflexivity|].
  exact (proj1 offset_is_subtracted_in_two_calls _ _ _ _ _ _ _ Vtmin H
           eq_refl).
Defined.

Lemma hru_body_only_tmax (self : FpoNHM) (unique_hru_ids : DataFrameGroupBy)
    (d_flt : pervar (list f8)) (i : nat) (index_i : Z) (d : pervar (list f8)) :
  vars self = ["tmax"] ->
  hru_body self unique_hru_ids d_flt i index_i d
  = (weight_id_rows <- get_group unique_hru_ids index_i ;;
     w <- getattr_values weight_id_rows "w" ;;
     tgid <- getattr_values weight_id_rows "grid_ids" ;;
     cells <- take (tmax d_flt) tgid ;;
     v <- getaverage (np_sub_scalar cells (of_Q 273.5)) (col_floats w) ;;
     Ok (with_tmax (store (tmax d) i v) d)).
Proof.
  intros H. unfold hru_body, in_vars. rewrite H. simpl.
  destruct (get_group unique_hru_ids index_i) as [rows|]; [simpl|reflexivity].
  destruct (getattr_values rows "w") as [w|]; [simpl|reflexivity].
  destruct (getattr_values rows "grid_ids") as [tgid|]; [simpl|reflexivity].
  destruct (take (tmax d_flt) tgid) as [cells|]; [simpl|reflexivity].
  destruct (getaverage _ _); reflexivity.
Qed.

Lemma hru_body_only_tmin (self : FpoNHM) (unique_hru_ids : DataFrameGroupBy)
    (d_flt : pervar (list f8)) (i : nat) (index_i : Z) (d : pervar (list f8)) :
  vars self = ["tmin"] ->
  hru_body self unique_hru_ids d_flt i index_i d
  = (weight_id_rows <- get_group unique_hru_ids index_i ;;
     w <- getattr_values weight_id_rows "w" ;;
     tgid <- getattr_values weight_id_rows "grid_ids" ;;
     cells <- take (tmin d_flt) tgid ;;
     v <- getaverage (np_sub_scalar cells (of_Q 273.5)) (col_floats w) ;;
     Ok (with_tmin (store (tmin d) i v) d)).
Proof.
  intros H. unfold hru_body, in_vars. rewrite H. simpl.
  destruct (get_group unique_hru_ids index_i) as [rows|]; [simpl|reflexivity].
  destruct (getattr_values rows "w") as [w|]; [simpl|reflexivity].
  destruct (getattr_values rows "grid_ids") as [tgid|]; [simpl|reflexivity].
  destruct (take (tmin d_flt) tgid) as [cells|]; [simpl|reflexivity].
  destruct (getaverage _ _); reflexivity.
Qed.

(** C9: what is subtracted from the tmax and from the tmin cell values
    before they are averaged is 273.5, which is not 273.15, and [finalize]
    gives both variables the unit [degree_Celsius]; cells at 273.15 K come
    out as -0.35. *)
Theorem temperature_offset_is_273_5 :
  (forall self unique_hru_ids d_flt i index_i d,
      vars self = ["tmax"] ->
      hru_body self unique_hru_ids d_flt i index_i d
      = (weight_id_rows <- get_group unique_hru_ids index_i ;;
         w <- getattr_values weight_id_rows "w" ;;
         tgid <- getattr_values weight_id_rows "grid_ids" ;;
         cells <- take (tmax d_flt) tgid ;;
         v <- getaverage (np_sub_scalar cells (of_Q 273.5)) (col_floats w) ;;
         Ok (with_tmax (store (tmax d) i v) d)))
  /\ (forall self unique_hru_ids d_flt i index_i d,
      vars self = ["tmin"] ->
      hru_body self unique_hru_ids d_flt i index_i d
      = (weight_id_rows <- get_group unique_hru_ids index_i ;;
         w <- getattr_values weight_id_rows "w" ;;
         tgid <- getattr_values weight_id_rows "grid_ids" ;;
         cells <- take (tmin d_flt) tgid ;;
         v <- getaverage (np_sub_scalar cells (of_Q 273.5)) (col_floats w) ;;
         Ok (with_tmin (store (tmin d) i v) d)))
  /\ of_Q 273.5 <> of_Q 273.15
  /\ (forall self,
      map units (finalize_var self "tmax") = ["degree_Celsius"]
      /\ map units (finalize_var self "tmin") = ["degree_Celsius"])
  /\ (exists self,
      run_weights freezing_day = Ok self
      /\ tmax (np self) = [[of_Q (-0.35)]]
      /\ tmin (np self) = [[of_Q (-0.35)]]
      /\ map units (finalize self) = ["degree_Celsius"; "degree_Celsius"]).
Proof.
  split; [exact hru_body_only_tmax|].
  split; [exact hru_body_only_tmin|].
  split.
  { intros E. apply (proj2 (f8_beq_eq _ _)) in E. vm_compute in E.
    discriminate E. }
  split; [intros self; split; reflexivity|].
  eexists. split; [vm_compute; reflexivity|].
  split; [f8_decide|]. split; [f8_decide|]. reflexivity.
Qed.

Lemma temperature_offset_is_273_5_witness :
  vars (mkFpoNHM ["tmax"] 1 (ds freezing_day) [7%Z] one_unit_weights 1 1 1
          (pv_const [])) = ["tmax"]
  /\ hru_body (mkFpoNHM ["tmax"] 1 (ds freezing_day) [7%Z] one_unit_weights
                 1 1 1 (pv_const []))
       (GroupBy one_unit_weights "hru_id_nat")
       (pv_const [of_Q 273.15]) 0 7 (pv_const [Fin 0])
     = (weight_id_rows <- get_group (GroupBy one_unit_weights "hru_id_nat") 7 ;;
        w <- getattr_values weight_id_rows "w" ;;
        tgid <- getattr_values weight_id_rows "grid_ids" ;;
        cells <- take [of_Q 273.15] tgid ;;
        v <- getaverage (np_sub_scalar cells (of_Q 273.5)) (col_floats w) ;;
        Ok (with_tmax (store [Fin 0] 0 v) (pv_const [Fin 0]))).
Proof.
  split; [reflexivity|].
  apply (proj1 temperature_offset_is_273_5). reflexivity.
Defined.

(** ** Units without a weight group *)

Lemma bind_raises {A B : Type} (m : result A) (k : A -> result B) :
  raises m -> raises (bind m k).
Proof. intros [e ->]. exists e. reflexivity. Qed.

Lemma bind_raises_k {A B : Type} (m : result A) (k : A -> result B) :
  (forall a, raises (k a)) -> raises (bind m k).
Proof.
  intros H. destruct m as [a|e]; simpl; [apply H|].
  exists e. reflexivity.
Qed.

Lemma get_group_missing (unique_hru_ids : DataFrameGroupBy) (name : Z) :
  has_group unique_hru_ids name = false ->
  get_group unique_hru_ids name = Raise KeyError.
Proof. intros H. unfold get_group. rewrite H. reflexivity. Qed.

Lemma hru_body_missing (self : FpoNHM) (unique_hru_ids : DataFrameGroupBy)
    (d_flt : pervar (list f8)) (i : nat) (index_i : Z) (d : pervar (list f8)) :
  has_group unique_hru_ids index_i = false ->
  hru_body self unique_hru_ids d_flt i index_i d = Raise KeyError.
Proof.
  intros H. unfold hru_body. rewrite (get_group_missing _ _ H). reflexivity.
Qed.

Lemma hru_loop_missing (self : FpoNHM) (unique_hru_ids : DataFrameGroupBy)
    (d_flt : pervar (list f8)) (name : Z) (index : list Z) :
  has_group unique_hru_ids name = false -> In name index ->
  forall i d, raises (hru_loop self unique_hru_ids d_flt i index d).
Proof.
  intros Hg. induction index as [|index_i rest IH]; simpl; [tauto|].
  intros [->|Hin] i d.
  - rewrite (hru_body_missing _ _ _ _ _ _ Hg). exists KeyError. reflexivity.
  - apply bind_raises_k. intros d'. apply IH. exact Hin.
Qed.

Lemma day_body_missing (self : FpoNHM) (unique_hru_ids : DataFrameGroupBy)
    (name : Z) (index : list Z) (day : nat) (np : pervar (list (list f8))) :
  has_group unique_hru_ids name = false -> In name index ->
  raises (day_body self unique_hru_ids index day np).
Proof.
  intros Hg Hin. unfold day_body.
  do 7 (apply bind_raises_k; intros ?).
  apply bind_raises. apply (hru_loop_missing _ _ _ name); assumption.
Qed.

(** C10 as stated fails: a run over no day looks no unit up.  Unit 3 is
    among the target units and has no group in the weight table, and
    [run_weights] returns, with empty arrays. *)
Lemma run_over_no_day_looks_up_no_unit :
  In 3%Z (gdf_hru_id_nat (setnumdays unit_without_weights 0))
  /\ weight_table (wghts_file (setnumdays unit_without_weights 0))
     = Ok (GroupBy two_units_weights "hru_id_nat")
  /\ has_group (GroupBy two_units_weights "hru_id_nat") 3 = false
  /\ run_weights (setnumdays unit_without_weights 0)
     = Ok (with_np (pv_const []) (setnumdays unit_without_weights 0)).
Proof.
  split; [right; left; reflexivity|]. repeat split.
Qed.

(** C10, amended: looking up the group of a unit id that the weight table
    does not have raises [KeyError], before anything is computed for the
    unit; a run over at least one day, with such an id among the target
    units, ends with an exception and returns no values at all; and a run
    over no day returns as soon as the weight table is built, whatever the
    unit ids are. *)
Theorem missing_group_aborts_run :
  (forall unique_hru_ids name,
      has_group unique_hru_ids name = false ->
      get_group unique_hru_ids name = Raise KeyError)
  /\ (forall self unique_hru_ids d_flt i index_i d,
      has_group unique_hru_ids index_i = false ->
      hru_body self unique_hru_ids d_flt i index_i d = Raise KeyError)
  /\ (forall self name,
      (0 < numdays self)%nat ->
      In name (gdf_hru_id_nat self) ->
      (forall unique_hru_ids,
          weight_table (wghts_file self) = Ok unique_hru_ids ->
          has_group unique_hru_ids name = false) ->
      raises (run_weights self))
  /\ (forall self unique_hru_ids,
      weight_table (wghts_file self) = Ok unique_hru_ids ->
      numdays self = 0%nat ->
      run_weights self = Ok (with_np (pv_const []) self)).
Proof.
  split; [exact get_group_missing|].
  split; [exact hru_body_missing|].
  split.
  - intros self name Hdays Hin Hg. unfold run_weights.
    destruct (weight_table (wghts_file self)) as [g|e] eqn:E; simpl.
    + apply bind_raises.
      destruct (numdays self) as [|n]; [lia|]. simpl.
      apply bind_raises.
      apply (day_body_missing _ _ name); [apply Hg; reflexivity|exact Hin].
    + exists e. reflexivity.
  - intros self g Hg Hn. unfold run_weights. rewrite Hg, Hn. reflexivity.
Qed.

Lemma missing_group_aborts_run_witness :
  has_group (GroupBy two_units_weights "hru_id_nat") 3 = false
  /\ get_group (GroupBy two_units_weights "hru_id_nat") 3 = Raise KeyError
  /\ (0 < numdays unit_without_weights)%nat
  /\ In 3%Z (gdf_hru_id_nat unit_without_weights)
  /\ run_weights unit_without_weights = Raise KeyError
  /\ raises (run_weights unit_without_weights).
Proof.
  assert (Hg : has_group (GroupBy two_units_weights "hru_id_nat") 3 = false)
    by reflexivity.
  assert (Hd : (0 < numdays unit_without_weights)%nat) by (simpl; lia).
  assert (Hin : In 3%Z (gdf_hru_id_nat unit_without_weights))
    by (right; left; reflexivity).
  split; [exact Hg|].
  split; [exact (proj1 missing_group_aborts_run _ _ Hg)|].
  split; [exact Hd|]. split; [exact Hin|].
  split; [reflexivity|].
  apply (proj1 (proj2 (proj2 missing_group_aborts_run)) _ 3%Z Hd Hin).
  intros g E. injection E as <-. exact Hg.
Defined.

(* ================================================================== *)
(** * Further properties of the code *)

(** ** [getaverage] *)

(** X1: [getaverage] lets no [ZeroDivisionError] out: it raises exactly when
    the two arrays differ in shape, and then [TypeError]; on arrays of one
    shape it returns the fill value when the weights sum to zero, whatever
    the data, and the quotient of the sums otherwise. *)
Theorem getaverage_raises_only_TypeError (data wghts : list f8) :
  (forall e, getaverage data wghts = Raise e ->
             e = TypeError /\ length data <> length wghts)
  /\ (length data <> length wghts -> getaverage data wghts = Raise TypeError)
  /\ (length data = length wghts -> np_sum wghts = Fin 0 ->
      getaverage data wghts = Ok default_fillvals_f8)
  /\ (length data = length wghts -> np_sum wghts <> Fin 0 ->
      getaverage data wghts
      = Ok (fdiv (np_sum (np_multiply data wghts)) (np_sum wghts))).
Proof.
  split; [|split; [|split]].
  - intros e H.
    destruct (Nat.eq_dec (length data) (length wghts)) as [Hlen|Hlen].
    + rewrite getaverage_eq in H by exact Hlen.
      destruct (is_zero (np_sum wghts)); discriminate H.
    + rewrite getaverage_shapes in H by exact Hlen.
      injection H as <-. split; [reflexivity|exact Hlen].
  - apply getaverage_shapes.
  - intros Hlen Hw. rewrite getaverage_eq by exact Hlen.
    rewrite Hw. reflexivity.
  - intros Hlen Hw. rewrite getaverage_eq by exact Hlen.
    apply is_zero_false_iff in Hw. rewrite Hw. reflexivity.
Qed.

Lemma getaverage_raises_only_TypeError_witness :
  length [NaN; of_Z 1] <> length [of_Z 1]
  /\ getaverage [NaN; of_Z 1] [of_Z 1] = Raise TypeError
  /\ length [NaN; of_Z 1] = length [of_Z 1; of_Z (-1)]
  /\ np_sum [of_Z 1; of_Z (-1)] = Fin 0
  /\ getaverage [NaN; of_Z 1] [of_Z 1; of_Z (-1)] = Ok default_fillvals_f8.
Proof.
  assert (H1 : length [NaN; of_Z 1] <> length [of_Z 1]) by discriminate.
  assert (H2 : np_sum [of_Z 1; of_Z (-1)] = Fin 0) by f8_decide.
  split; [exact H1|].
  split; [exact (proj1 (proj2 (getaverage_raises_only_TypeError _ _)) H1)|].
  split; [reflexivity|]. split; [exact H2|].
  exact (proj1 (proj2 (proj2 (getaverage_raises_only_TypeError _ _)))
           eq_refl H2).
Defined.

Lemma getaverage_Fin (vs ws : list Qc) :
  length vs = length ws ->
  getaverage (map Fin vs) (map Fin ws)
  = if is_zero (Fin (Qc_sum ws)) then Ok default_fillvals_f8
    else Ok (Fin (weighted_mean vs ws)).
Proof.
  intros Hlen.
  rewrite getaverage_eq by (rewrite !length_map; exact Hlen).
  rewrite np_sum_Fin, np_multiply_Fin.
  destruct (is_zero (Fin (Qc_sum ws))) eqn:E; [reflexivity|].
  rewrite fdiv_Fin; [reflexivity|].
  intros H. rewrite (proj2 (is_zero_Fin _) H) in E. discriminate E.
Qed.

(** ** [np_get_wval] *)

Lemma forallb_isnan_all (data : list f8) :
  (forall x, In x data -> x = NaN) -> forallb isnan data = true.
Proof.
  intros H. apply forallb_forall. intros x Hx. rewrite (H x Hx).
  reflexivity.
Qed.

(** X7: [np_get_wval] returns the fill value when every cell value is NaN,
    for a group of any length, the empty one included, and whatever the
    weights are. *)
Theorem np_get_wval_all_NaN (data wghts : list f8) :
  length data = length wghts ->
  (forall x, In x data -> x = NaN) ->
  np_get_wval data wghts = Ok default_fillvals_f8.
Proof.
  intros Hlen H. rewrite np_get_wval_eq by exact Hlen.
  rewrite forallb_isnan_all by exact H. reflexivity.
Qed.

Lemma np_get_wval_all_NaN_witness :
  length [NaN; NaN] = length [of_Z 1; PInf]
  /\ np_get_wval [NaN; NaN] [of_Z 1; PInf] = Ok default_fillvals_f8
  /\ np_get_wval [] [] = Ok default_fillvals_f8.
Proof.
  split; [reflexivity|]. split.
  - apply np_get_wval_all_NaN; [reflexivity|].
    intros x [<-|[<-|[]]]; reflexivity.
  - apply np_get_wval_all_NaN; [reflexivity|]. intros x [].
Defined.

Lemma unmasked_same_valid_weights (l : list (f8 * (f8 * f8))) :
  (forall t, In t l -> isnan (fst t) = false -> fst (snd t) = snd (snd t)) ->
  unmasked (map fst l) (map (fun t => fst (snd t)) l)
  = unmasked (map fst l) (map (fun t => snd (snd t)) l).
Proof.
  unfold unmasked. induction l as [|[x [w w']] l IH]; intros H; simpl;
    [reflexivity|].
  rewrite IH by (intros t Ht; apply H; right; exact Ht).
  destruct (isnan x) eqn:E; simpl; [reflexivity|].
  pose proof (H (x, (w, w')) (or_introl eq_refl) E) as Hw. simpl in Hw.
  rewrite Hw. reflexivity.
Qed.

(** X9: The weight of a NaN cell has no part in the result of [np_get_wval]:
    two weight arrays that agree on the cells that are not NaN give the
    same result. *)
Theorem np_get_wval_ignores_NaN_weights (l : list (f8 * (f8 * f8))) :
  (forall t, In t l -> isnan (fst t) = false -> fst (snd t) = snd (snd t)) ->
  np_get_wval (map fst l) (map (fun t => fst (snd t)) l)
  = np_get_wval (map fst l) (map (fun t => snd (snd t)) l).
Proof.
  intros H.
  rewrite !np_get_wval_eq by (rewrite !length_map; reflexivity).
  unfold masked_mean. rewrite (unmasked_same_valid_weights l H).
  reflexivity.
Qed.

Lemma np_get_wval_ignores_NaN_weights_witness :
  np_get_wval [NaN; of_Z 10; of_Z 20] [of_Z 5; of_Z 1; of_Z 3]
  = np_get_wval [NaN; of_Z 10; of_Z 20] [NaN; of_Z 1; of_Z 3].
Proof.
  apply (np_get_wval_ignores_NaN_weights
           [(NaN, (of_Z 5, NaN)); (of_Z 10, (of_Z 1, of_Z 1));
            (of_Z 20, (of_Z 3, of_Z 3))]).
  intros t [<-|[<-|[<-|[]]]]; simpl; intros E;
    [discriminate E|reflexivity|reflexivity].
Defined.

(** X10: Where the two functions part without any NaN: on cell values that are
    all numbers, with weights whose sum and whose weighted sum are zero
    (all weights zero, say), [getaverage] returns the fill value and
    [np_get_wval], which divides 0.0 by 0.0, returns NaN. *)
Theorem np_get_wval_zero_weights (vs ws : list Qc) :
  vs <> [] -> length vs = length ws ->
  Qc_sum ws = 0 -> Qc_dot vs ws = 0 ->
  np_get_wval (map Fin vs) (map Fin ws) = Ok NaN
  /\ getaverage (map Fin vs) (map Fin ws) = Ok default_fillvals_f8.
Proof.
  intros Hne Hlen Hs Hd.
  assert (Hnan : forall x, In x (map Fin vs) -> isnan x = false).
  { intros x Hx. apply in_map_iff in Hx. destruct Hx as [v [<- _]].
    reflexivity. }
  split.
  - rewrite np_get_wval_eq by (rewrite !length_map; exact Hlen).
    rewrite forallb_isnan_no_NaN;
      [|exact Hnan|destruct vs; [congruence|discriminate]].
    unfold masked_mean. rewrite unmasked_no_NaN by exact Hnan. cbv zeta.
    rewrite combine_multiply.
    rewrite combine_snd by (rewrite !length_map; exact Hlen).
    rewrite np_multiply_Fin, np_sum_Fin, Hs, Hd. reflexivity.
  - rewrite getaverage_Fin by exact Hlen.
    rewrite (proj2 (is_zero_Fin _) Hs). reflexivity.
Qed.

Lemma np_get_wval_zero_weights_witness :
  [Q2Qc 1; Q2Qc 2] <> []
  /\ length [Q2Qc 1; Q2Qc 2] = length [Q2Qc 0; Q2Qc 0]
  /\ np_get_wval [of_Z 1; of_Z 2] [of_Z 0; of_Z 0] = Ok NaN
  /\ getaverage [of_Z 1; of_Z 2] [of_Z 0; of_Z 0] = Ok default_fillvals_f8.
Proof.
  assert (Hne : [Q2Qc 1; Q2Qc 2] <> []) by discriminate.
  split; [exact Hne|]. split; [reflexivity|].
  exact (np_get_wval_zero_weights [Q2Qc 1; Q2Qc 2] [Q2Qc 0; Q2Qc 0] Hne
           eq_refl eq_refl eq_refl).
Defined.

(** ** Groups of the weights file and indexing by cell *)

Lemma select_length {A : Type} (mask : list bool) (l : list A) :
  length mask = length l ->
  length (select mask l) = length (filter (fun b : bool => b) mask).
Proof.
  revert l. induction mask as [|[] mask IH]; intros [|x l] H; simpl in *;
    try discriminate; try reflexivity.
  - rewrite IH by congruence. reflexivity.
  - apply IH. congruence.
Qed.

Lemma col_select_length (mask : list bool) (c : column) :
  length mask = col_length c ->
  col_length (col_select mask c) = length (filter (fun b : bool => b) mask).
Proof. destruct c; simpl; apply select_length. Qed.

Lemma col_floats_length (c : column) : length (col_floats c) = col_length c.
Proof. destruct c; simpl; [apply length_map|reflexivity]. Qed.

Lemma lookup_col_In (name : string) (df : DataFrame) (c : column) :
  lookup_col name df = Some c -> exists n, In (n, c) df.
Proof.
  induction df as [|[n c'] df IH]; simpl; [discriminate|].
  destruct (String.eqb n name).
  - intros H. injection H as ->. exists n. left. reflexivity.
  - intros H. destruct (IH H) as [n' Hn']. exists n'. right. exact Hn'.
Qed.

Lemma lookup_col_rows (name : string) (df : DataFrame) (c : column) (n : nat) :
  frame_rows df n -> lookup_col name df = Some c -> col_length c = n.
Proof.
  intros Hf H. destruct (lookup_col_In _ _ _ H) as [n' Hin].
  unfold frame_rows in Hf. rewrite Forall_forall in Hf.
  exact (Hf _ Hin).
Qed.

Lemma lookup_col_select (mask : list bool) (name : string) (df : DataFrame) :
  lookup_col name
    (map (fun nc : string * column => (fst nc, col_select mask (snd nc))) df)
  = option_map (col_select mask) (lookup_col name df).
Proof.
  induction df as [|[n c] df IH]; simpl; [reflexivity|].
  destruct (String.eqb n name); [reflexivity|exact IH].
Qed.

Lemma existsb_filter_length (mask : list bool) :
  existsb (fun b : bool => b) mask = true ->
  (0 < length (filter (fun b : bool => b) mask))%nat.
Proof.
  induction mask as [|[] mask IH]; simpl; try discriminate; try lia.
  exact IH.
Qed.

Lemma group_mask_length (g : DataFrameGroupBy) (name : Z) (n : nat) :
  frame_rows (obj g) n -> has_group g name = true ->
  length (group_mask g name) = n.
Proof.
  intros Hf Hg. unfold has_group in Hg. unfold group_mask in *.
  destruct (lookup_col (keys g) (obj g)) as [c|] eqn:E;
    [|discriminate Hg].
  rewrite length_map, col_floats_length.
  exact (lookup_col_rows _ _ _ _ Hf E).
Qed.

(** X11: A group that [get_group] returns is never empty: of a weights file
    all of whose columns have the same number of rows it keeps the column
    names, and every column of it has as many rows as the file has rows
    with that key, at least one. *)
Theorem get_group_rows (g : DataFrameGroupBy) (name : Z) (n : nat)
    (rows : DataFrame) :
  frame_rows (obj g) n ->
  get_group g name = Ok rows ->
  columns rows = columns (obj g)
  /\ frame_rows rows (group_size g name)
  /\ (0 < group_size g name)%nat.
Proof.
  intros Hf H. unfold get_group in H.
  destruct (has_group g name) eqn:Hg; [|discriminate H].
  injection H as <-.
  pose proof (group_mask_length g name n Hf Hg) as Hm.
  split; [|split].
  - unfold columns. rewrite map_map. reflexivity.
  - unfold frame_rows in *. rewrite Forall_forall in *.
    intros nc Hin. apply in_map_iff in Hin.
    destruct Hin as [[n0 c0] [<- Hin]]. simpl.
    apply col_select_length. rewrite Hm. symmetry. exact (Hf _ Hin).
  - apply existsb_filter_length. exact Hg.
Qed.

Lemma get_group_rows_witness :
  frame_rows (obj (GroupBy negative_weights_file "hru_id_nat")) 2
  /\ exists rows,
       get_group (GroupBy negative_weights_file "hru_id_nat") 1 = Ok rows
       /\ columns rows = columns negative_weights_file
       /\ frame_rows rows 2.
Proof.
  assert (Hf : frame_rows (obj (GroupBy negative_weights_file "hru_id_nat")) 2).
  { repeat constructor. }
  split; [exact Hf|]. eexists.
  assert (H : get_group (GroupBy negative_weights_file "hru_id_nat") 1
              = Ok (map (fun nc : string * column =>
                           (fst nc, col_select [true; true] (snd nc)))
                      negative_weights_file)) by reflexivity.
  split; [exact H|].
  destruct (get_group_rows _ _ _ _ Hf H) as (Hc & Hr & _).
  split; [exact Hc|exact Hr].
Defined.

Lemma getitem_in_bounds {A : Type} (a : list A) (z : Z) :
  in_bounds (length a) z -> exists x, getitem a z = Ok x.
Proof.
  unfold in_bounds, getitem. intros H.
  set (n := Z.of_nat (length a)) in *.
  set (j := if (z <? 0)%Z then (z + n)%Z else z).
  assert (Hj : (0 <= j < n)%Z).
  { subst j. destruct (z <? 0)%Z eqn:E; [apply Z.ltb_lt in E|apply Z.ltb_ge in E];
      lia. }
  replace ((0 <=? j)%Z && (j <? n)%Z) with true
    by (symmetry; apply andb_true_intro; split;
        [apply Z.leb_le|apply Z.ltb_lt]; lia).
  destruct (nth_error a (Z.to_nat j)) as [x|] eqn:E.
  - exists x. reflexivity.
  - apply nth_error_None in E. subst n. lia.
Qed.

Lemma getitem_out_of_bounds {A : Type} (a : list A) (z : Z) :
  ~ in_bounds (length a) z -> getitem a z = Raise IndexError.
Proof.
  unfold in_bounds, getitem. intros H.
  set (n := Z.of_nat (length a)) in *.
  destruct (z <? 0)%Z eqn:E; [apply Z.ltb_lt in E|apply Z.ltb_ge in E].
  - replace ((0 <=? z + n)%Z && (z + n <? n)%Z) with false; [reflexivity|].
    symmetry. apply andb_false_iff. left. apply Z.leb_gt. lia.
  - replace ((0 <=? z)%Z && (z <? n)%Z) with false; [reflexivity|].
    symmetry. apply andb_false_iff. right. apply Z.ltb_ge. lia.
Qed.

Lemma mapM_length {A B : Type} (f : A -> result B) (l : list A) (ys : list B) :
  mapM f l = Ok ys -> length ys = length l.
Proof.
  revert ys. induction l as [|x l IH]; simpl; intros ys H.
  - injection H as <-. reflexivity.
  - destruct (f x) as [y|]; [simpl in H|discriminate H].
    destruct (mapM f l) as [ys'|]; [simpl in H|discriminate H].
    injection H as <-. simpl. rewrite (IH ys' eq_refl). reflexivity.
Qed.

Lemma take_length (a : list f8) (tgid : column) (cells : list f8) :
  take a tgid = Ok cells -> length cells = col_length tgid.
Proof.
  destruct tgid as [l|l]; simpl; [apply mapM_length|discriminate].
Qed.

Lemma take_in_bounds (a : list f8) (l : list Z) :
  Forall (in_bounds (length a)) l ->
  exists cells, take a (IntCol l) = Ok cells /\ length cells = length l.
Proof.
  intros H. simpl. induction H as [|z l Hz _ IH]; simpl.
  - exists []. split; reflexivity.
  - destruct (getitem_in_bounds a z Hz) as [x ->].
    destruct IH as [cells [-> Hlen]]. simpl.
    exists (x :: cells). split; [reflexivity|]. simpl. congruence.
Qed.

(** X12: Indexing a flattened grid by the cell indices of a group succeeds
    exactly when the indices are integers within the grid, negative ones
    counting from its end, and then gives one cell value for each index;
    an index out of the grid, and any non-integer index column, raise
    [IndexError]. *)
Theorem take_bounds (a : list f8) (l : list Z) :
  (Forall (in_bounds (length a)) l ->
   exists cells, take a (IntCol l) = Ok cells /\ length cells = length l)
  /\ (~ Forall (in_bounds (length a)) l ->
      take a (IntCol l) = Raise IndexError)
  /\ (forall fl, take a (FloatCol fl) = Raise IndexError)
  /\ (forall x, getitem (a ++ [x]) (-1) = Ok x).
Proof.
  split; [|split; [|split]].
  - apply take_in_bounds.
  - intros H. simpl. induction l as [|z l IH]; simpl.
    + contradiction H. constructor.
    + destruct (getitem a z) as [x|e] eqn:E.
      * simpl. rewrite IH; [reflexivity|].
        intros Hl. apply H. constructor; [|exact Hl].
        destruct (Z_lt_dec z (- Z.of_nat (length a))) as [Hlo|Hlo].
        { rewrite getitem_out_of_bounds in E;
            [discriminate E|unfold in_bounds; lia]. }
        destruct (Z_lt_dec z (Z.of_nat (length a))) as [Hhi|Hhi].
        { unfold in_bounds. lia. }
        rewrite getitem_out_of_bounds in E;
          [discriminate E|unfold in_bounds; lia].
      * simpl.
        destruct (Z_lt_dec z (- Z.of_nat (length a))) as [Hlo|Hlo].
        { rewrite getitem_out_of_bounds in E by (unfold in_bounds; lia).
          congruence. }
        destruct (Z_lt_dec z (Z.of_nat (length a))) as [Hhi|Hhi].
        { destruct (getitem_in_bounds a z) as [x Hx];
            [unfold in_bounds; lia|congruence]. }
        rewrite getitem_out_of_bounds in E by (unfold in_bounds; lia).
        congruence.
  - reflexivity.
  - intros x. unfold getitem. rewrite length_app.
    change (length [x]) with 1%nat. change (-1 <? 0)%Z with true.
    cbv iota zeta.
    replace (-1 + Z.of_nat (length a + 1))%Z with (Z.of_nat (length a))
      by lia.
    replace ((0 <=? Z.of_nat (length a))%Z
             && (Z.of_nat (length a) <? Z.of_nat (length a + 1))%Z)
      with true
      by (symmetry; apply andb_true_intro; split;
          [apply Z.leb_le|apply Z.ltb_lt]; lia).
    rewrite Nat2Z.id. rewrite nth_error_app2 by lia.
    rewrite Nat.sub_diag. reflexivity.
Qed.

Lemma take_bounds_witness :
  Forall (in_bounds (length [of_Z 10; of_Z 20; of_Z 30])) [2%Z; (-3)%Z]
  /\ (exists cells,
        take [of_Z 10; of_Z 20; of_Z 30] (IntCol [2%Z; (-3)%Z]) = Ok cells
        /\ length cells = length [2%Z; (-3)%Z])
  /\ take [of_Z 10; of_Z 20; of_Z 30] (IntCol [2%Z; (-3)%Z])
     = Ok [of_Z 30; of_Z 10]
  /\ take [of_Z 10; of_Z 20; of_Z 30] (IntCol [3%Z]) = Raise IndexError.
Proof.
  assert (H : Forall (in_bounds (length [of_Z 10; of_Z 20; of_Z 30]))
                [2%Z; (-3)%Z]).
  { repeat constructor; unfold in_bounds; simpl; lia. }
  split; [exact H|].
  split; [exact (proj1 (take_bounds _ _) H)|].
  split; [reflexivity|].
  apply (proj1 (proj2 (take_bounds _ _))).
  intros Hf. inversion Hf as [|z l Hz _]; subst.
  unfold in_bounds in Hz. simpl in Hz. lia.
Defined.

Lemma select_Forall {A : Type} (P : A -> Prop) (mask : list bool) (l : list A) :
  Forall P l -> Forall P (select mask l).
Proof.
  intros H. revert mask. induction H as [|x l Hx _ IH]; intros [|[] mask];
    simpl; try constructor; auto.
Qed.

Lemma convert_length (o : option f8) (cells : list f8) :
  length (convert o cells) = length cells.
Proof.
  destruct o; simpl; [unfold np_sub_scalar; apply length_map|reflexivity].
Qed.

Lemma getaverage_defined (data wghts : list f8) :
  length data = length wghts -> exists x, getaverage data wghts = Ok x.
Proof.
  intros H. rewrite getaverage_eq by exact H.
  destruct (is_zero (np_sum wghts)); eexists; reflexivity.
Qed.

Lemma unit_value_wf (g : DataFrameGroupBy) (n : nat) (wcol : column)
    (l : list Z) (d_flt_v : list f8) (v : gmvar) (name : Z) :
  frame_rows (obj g) n ->
  lookup_col "w" (obj g) = Some wcol ->
  lookup_col "grid_ids" (obj g) = Some (IntCol l) ->
  Forall (in_bounds (length d_flt_v)) l ->
  has_group g name = true ->
  exists x, unit_value g d_flt_v v name = Ok x.
Proof.
  intros Hf Hw Hl Hb Hg. unfold unit_value, get_group. rewrite Hg. simpl.
  unfold getattr_values. rewrite !lookup_col_select, Hw, Hl. simpl.
  pose proof (group_mask_length g name n Hf Hg) as Hm.
  destruct (take_in_bounds d_flt_v (select (group_mask g name) l))
    as [cells [Ht Hlen]]; [apply select_Forall; exact Hb|].
  simpl in Ht. rewrite Ht. simpl.
  apply getaverage_defined.
  rewrite convert_length, Hlen, col_floats_length.
  rewrite col_select_length
    by (rewrite Hm; symmetry; exact (lookup_col_rows _ _ _ _ Hf Hw)).
  apply select_length. rewrite Hm.
  symmetry. exact (lookup_col_rows _ _ _ _ Hf Hl).
Qed.

(** X13: For a weights file all of whose columns have the same number of rows,
    with a column [w] and an integer column [grid_ids] whose indices lie
    within the flattened grid, the aggregation of a unit that has rows in
    the file returns a value: the cell values and the weights it passes to
    [getaverage] always have one shape, so neither [TypeError] nor
    [IndexError] can come out of it. *)
Theorem unit_value_defined (g : DataFrameGroupBy) (n : nat) (wcol : column)
    (l : list Z) (d_flt_v : list f8) (v : gmvar) (name : Z) :
  frame_rows (obj g) n ->
  lookup_col "w" (obj g) = Some wcol ->
  lookup_col "grid_ids" (obj g) = Some (IntCol l) ->
  Forall (in_bounds (length d_flt_v)) l ->
  has_group g name = true ->
  exists x, unit_value g d_flt_v v name = Ok x.
Proof. exact (unit_value_wf g n wcol l d_flt_v v name). Qed.

Lemma unit_value_defined_witness :
  exists x,
    unit_value (GroupBy two_units_weights "hru_id_nat") [of_Z 1; NaN]
      Vtmax 2 = Ok x.
Proof.
  apply (unit_value_defined (GroupBy two_units_weights "hru_id_nat") 2
           (FloatCol [of_Z 1; of_Z 1]) [0%Z; 1%Z]).
  - repeat constructor.
  - reflexivity.
  - reflexivity.
  - repeat constructor; unfold in_bounds; simpl; lia.
  - reflexivity.
Defined.

(** X14: A weights file whose cell indices are not all integers is read and
    grouped without complaint, and fails later: for a unit that has rows
    in the file, the first variable that is asked for raises [IndexError]
    when the grid is indexed; with no variable asked for, nothing is
    indexed and the unit passes. *)
Theorem float_grid_ids_raise_IndexError (self : FpoNHM)
    (g : DataFrameGroupBy) (wcol : column) (fl : list f8)
    (d_flt : pervar (list f8)) (i : nat) (name : Z) (d : pervar (list f8)) :
  lookup_col "w" (obj g) = Some wcol ->
  lookup_col "grid_ids" (obj g) = Some (FloatCol fl) ->
  has_group g name = true ->
  ((exists v, in_vars (tvar_of v) self = true) ->
   hru_body self g d_flt i name d = Raise IndexError)
  /\ ((forall v, in_vars (tvar_of v) self = false) ->
      hru_body self g d_flt i name d = Ok d).
Proof.
  intros Hw Hl Hg. unfold hru_body, get_group. rewrite Hg. simpl.
  unfold getattr_values. rewrite !lookup_col_select, Hw, Hl. simpl.
  split.
  - intros [v Hv].
    destruct (in_vars "tmax" self) eqn:E1; [reflexivity|simpl].
    destruct (in_vars "tmin" self) eqn:E2; [reflexivity|simpl].
    destruct (in_vars "ppt" self) eqn:E3; [reflexivity|simpl].
    destruct (in_vars "rhmax" self) eqn:E4; [reflexivity|simpl].
    destruct (in_vars "rhmin" self) eqn:E5; [reflexivity|simpl].
    destruct (in_vars "ws" self) eqn:E6; [reflexivity|simpl].
    destruct (in_vars "srad" self) eqn:E7; [reflexivity|simpl].
    destruct v; simpl in Hv; congruence.
  - intros H.
    rewrite (H Vtmax : in_vars "tmax" self = false).
    rewrite (H Vtmin : in_vars "tmin" self = false).
    rewrite (H Vppt : in_vars "ppt" self = false).
    rewrite (H Vrhmax : in_vars "rhmax" self = false).
    rewrite (H Vrhmin : in_vars "rhmin" self = false).
    rewrite (H Vws : in_vars "ws" self = false).
    rewrite (H Vsrad : in_vars "srad" self = false).
    reflexivity.
Qed.

Lemma float_grid_ids_raise_IndexError_witness :
  lookup_col "w" (obj (GroupBy fractional_index_file "hru_id_nat"))
  = Some (FloatCol [of_Q 0.5; of_Q 0.5])
  /\ has_group (GroupBy fractional_index_file "hru_id_nat") 1 = true
  /\ (exists v, in_vars (tvar_of v) one_day_asked = true)
  /\ hru_body one_day_asked (GroupBy fractional_index_file "hru_id_nat")
       (pv_const [of_Z 1]) 0 1 (pv_const [Fin 0])
     = Raise IndexError.
Proof.
  assert (Hv : exists v, in_vars (tvar_of v) one_day_asked = true)
    by (exists Vppt; reflexivity).
  split; [reflexivity|]. split; [reflexivity|]. split; [exact Hv|].
  exact (proj1 (float_grid_ids_raise_IndexError one_day_asked
                  (GroupBy fractional_index_file "hru_id_nat")
                  (FloatCol [of_Q 0.5; of_Q 0.5]) [of_Q 100.5; of_Z 101]
                  (pv_const [of_Z 1]) 0 1 (pv_const [Fin 0])
                  eq_refl eq_refl eq_refl) Hv).
Defined.

(** ** The loop over the days *)

Lemma pv_get_map {A B : Type} (f : A -> B) (v : gmvar) (p : pervar A) :
  pv_get v (pv_map f p) = f (pv_get v p).
Proof. destruct v; reflexivity. Qed.

Lemma pv_get_const {A : Type} (v : gmvar) (x : A) : pv_get v (pv_const x) = x.
Proof. destruct v; reflexivity. Qed.

Lemma zeros_length (n : nat) : length (zeros n) = n.
Proof. apply repeat_length. Qed.

Section day_loop.
Variables (self : FpoNHM) (unique_hru_ids : DataFrameGroupBy).

Lemma day_init_Ok (tvar : string) (day : nat) (p : list f8 * list f8) :
  day_init self tvar day = Ok p ->
  (in_vars tvar self = false)
  \/ (in_vars tvar self = true
      /\ exists d_flt_v,
           day_slice self tvar day = Ok d_flt_v
           /\ p = (zeros (num_hru self), d_flt_v)).
Proof.
  unfold day_init. destruct (in_vars tvar self); [|left; reflexivity].
  destruct (day_slice self tvar day) as [flt|]; [simpl|discriminate].
  intros H. injection H as <-. right. split; [reflexivity|].
  exists flt. auto.
Qed.

Lemma day_body_Ok (day : nat) (np np' : pervar (list (list f8))) :
  day_body self unique_hru_ids (gdf_hru_id_nat self) day np = Ok np' ->
  forall v,
    (in_vars (tvar_of v) self = false -> pv_get v np' = pv_get v np)
    /\ (in_vars (tvar_of v) self = true ->
        exists row,
          pv_get v np' = store (pv_get v np) day row
          /\ day_row self unique_hru_ids v day row).
Proof.
  unfold day_body.
  destruct (day_init self "tmax" day) as [i1|] eqn:E1; [|discriminate].
  destruct (day_init self "tmin" day) as [i2|] eqn:E2; [|discriminate].
  destruct (day_init self "ppt" day) as [i3|] eqn:E3; [|discriminate].
  destruct (day_init self "rhmax" day) as [i4|] eqn:E4; [|discriminate].
  destruct (day_init self "rhmin" day) as [i5|] eqn:E5; [|discriminate].
  destruct (day_init self "ws" day) as [i6|] eqn:E6; [|discriminate].
  destruct (day_init self "srad" day) as [i7|] eqn:E7; [|discriminate].
  cbn [bind]. cbv zeta.
  set (inits := PerVar i1 i2 i3 i4 i5 i6 i7).
  change (PerVar (fst i1) (fst i2) (fst i3) (fst i4) (fst i5) (fst i6) (fst i7))
    with (pv_map fst inits).
  change (PerVar (snd i1) (snd i2) (snd i3) (snd i4) (snd i5) (snd i6) (snd i7))
    with (pv_map snd inits).
  assert (Hin : forall u, day_init self (tvar_of u) day = Ok (pv_get u inits))
    by (intros []; assumption).
  destruct (hru_loop self unique_hru_ids (pv_map snd inits) 0
              (gdf_hru_id_nat self) (pv_map fst inits)) as [d'|] eqn:EL;
    [cbn [bind]|discriminate].
  intros H. injection H as <-. intros v.
  match goal with
  | |- context [pv_get v ?p] =>
      replace (pv_get v p)
        with (day_store self (tvar_of v) day (pv_get v np) (pv_get v d'))
        by (destruct v; reflexivity)
  end.
  unfold day_store.
  destruct (hru_loop_Ok _ _ _ _ _ _ _ EL v) as (Hlen & _ & Hb).
  rewrite !pv_get_map in *.
  destruct (day_init_Ok _ _ _ (Hin v)) as [Hf|[Ht (flt & Hs & Hp)]].
  - rewrite Hf. split; [reflexivity|discriminate].
  - rewrite Ht. split; [discriminate|]. intros _.
    exists (pv_get v d'). split; [reflexivity|].
    rewrite Hp in *. simpl fst in *. simpl snd in *.
    rewrite zeros_length in Hlen.
    split; [exact Hlen|].
    exists flt. split; [exact Hs|].
    intros i index_i Hi. destruct (Hb Ht) as [_ Hhigh].
    apply (Hhigh i index_i Hi). rewrite zeros_length. simpl.
    apply nth_error_Some. unfold num_hru. congruence.
Qed.

Lemma day_loop_Ok (days : list nat) :
  forall np np' : pervar (list (list f8)),
    day_loop self unique_hru_ids (gdf_hru_id_nat self) days np = Ok np' ->
    forall v,
      length (pv_get v np') = length (pv_get v np)
      /\ (in_vars (tvar_of v) self = false -> pv_get v np' = pv_get v np)
      /\ (Forall (fun row => length row = num_hru self) (pv_get v np) ->
          Forall (fun row => length row = num_hru self) (pv_get v np'))
      /\ (in_vars (tvar_of v) self = true -> NoDup days ->
          (forall day, ~ In day days ->
                       nth_error (pv_get v np') day
                       = nth_error (pv_get v np) day)
          /\ (forall day, In day days -> (day < length (pv_get v np))%nat ->
                          exists row,
                            nth_error (pv_get v np') day = Some row
                            /\ day_row self unique_hru_ids v day row)).
Proof.
  induction days as [|day0 days IH]; simpl; intros np np' H v.
  - injection H as <-. split; [reflexivity|]. split; [reflexivity|].
    split; [tauto|]. intros _ _. split; [reflexivity|tauto].
  - destruct (day_body self unique_hru_ids (gdf_hru_id_nat self) day0 np)
      as [np1|] eqn:E; [simpl in H|discriminate H].
    destruct (day_body_Ok _ _ _ E v) as [Ba Bb].
    destruct (IH _ _ H v) as (Ilen & Ia & Iall & Ib).
    destruct (in_vars (tvar_of v) self) eqn:Hv.
    + destruct (Bb eq_refl) as (row & Hnp1 & Hrow).
      assert (Hlen1 : length (pv_get v np1) = length (pv_get v np))
        by (rewrite Hnp1; apply store_length).
      split; [congruence|]. split; [discriminate|]. split.
      * intros Hall. apply Iall. rewrite Hnp1.
        apply store_Forall; [exact Hall|exact (proj1 Hrow)].
      * intros _ Hnd. inversion Hnd as [|d0 ds Hnotin Hnd']; subst.
        destruct (Ib eq_refl Hnd') as [Iout Iin].
        split.
        { intros day Hday. rewrite Iout by tauto. rewrite Hnp1.
          apply store_other. intros ->. tauto. }
        { intros day [<-|Hday] Hb.
          - exists row. split; [|exact Hrow].
            rewrite Iout by exact Hnotin. rewrite Hnp1.
            apply store_same. exact Hb.
          - apply Iin; [exact Hday|]. rewrite Hlen1. exact Hb. }
    + rewrite (Ba eq_refl) in *.
      split; [exact Ilen|]. split; [intros _; exact (Ia eq_refl)|].
      split; [exact Iall|discriminate].
Qed.
End day_loop.

(** ** The result of [run_weights] *)

Lemma run_weights_Ok (self self' : FpoNHM) :
  run_weights self = Ok self' ->
  exists unique_hru_ids np',
    weight_table (wghts_file self) = Ok unique_hru_ids
    /\ day_loop self unique_hru_ids (gdf_hru_id_nat self)
         (seq 0 (numdays self))
         (pv_const (repeat (zeros (num_hru self)) (numdays self)))
       = Ok np'
    /\ self' = with_np np' self.
Proof.
  unfold run_weights.
  destruct (weight_table (wghts_file self)) as [g|]; [simpl|discriminate].
  destruct (day_loop _ _ _ _ _) as [np'|] eqn:E; [simpl|discriminate].
  intros H. injection H as <-. exists g, np'. auto.
Qed.

Lemma run_weights_arrays (self self' : FpoNHM) :
  run_weights self = Ok self' ->
  self' = with_np (np self') self
  /\ forall v,
       length (pv_get v (np self')) = numdays self
       /\ Forall (fun row => length row = num_hru self) (pv_get v (np self'))
       /\ (in_vars (tvar_of v) self = false ->
           pv_get v (np self')
           = repeat (zeros (num_hru self)) (numdays self)).
Proof.
  intros H. destruct (run_weights_Ok _ _ H) as (g & np' & _ & Hl & ->).
  split; [reflexivity|]. intros v. simpl.
  destruct (day_loop_Ok _ _ _ _ _ Hl v) as (Hlen & Ha & Hall & _).
  rewrite pv_get_const in *. rewrite repeat_length in Hlen.
  split; [exact Hlen|]. split; [|exact Ha].
  apply Hall. apply Forall_forall. intros row Hr.
  apply repeat_spec in Hr. subst row. apply zeros_length.
Qed.

(** X16: After a run that succeeds, each of the seven arrays has one row for
    each day and, in each row, one value for each target unit; and the
    array of a variable that was not asked for is all zeros. *)
Theorem run_weights_shape (self self' : FpoNHM) :
  run_weights self = Ok self' ->
  forall v,
    length (pv_get v (np self')) = numdays self
    /\ Forall (fun row => length row = num_hru self) (pv_get v (np self'))
    /\ (in_vars (tvar_of v) self = false ->
        pv_get v (np self')
        = repeat (zeros (num_hru self)) (numdays self)).
Proof.
  intros H. exact (proj2 (run_weights_arrays self self' H)).
Qed.

Lemma run_weights_shape_witness :
  exists self',
    run_weights two_days_one_NaN = Ok self'
    /\ forall v,
         length (pv_get v (np self')) = numdays two_days_one_NaN
         /\ Forall (fun row => length row = num_hru two_days_one_NaN)
              (pv_get v (np self'))
         /\ (in_vars (tvar_of v) two_days_one_NaN = false ->
             pv_get v (np self')
             = repeat (zeros (num_hru two_days_one_NaN))
                 (numdays two_days_one_NaN)).
Proof.
  assert (H : exists s, run_weights two_days_one_NaN = Ok s)
    by (eexists; vm_compute; reflexivity).
  destruct H as [s Hs]. exists s. split; [exact Hs|].
  exact (run_weights_shape _ _ Hs).
Defined.

(** X17: What a run that succeeds has stored: for a variable that was asked
    for, the value at day [day] and unit number [i] is the aggregation of
    that unit's group over the flattened grid of that variable and day,
    the offset of the variable subtracted first.  No other day, variable
    or unit has a part in it. *)
Theorem run_weights_entry (self self' : FpoNHM)
    (unique_hru_ids : DataFrameGroupBy) (v : gmvar) (day i : nat)
    (index_i : Z) :
  run_weights self = Ok self' ->
  weight_table (wghts_file self) = Ok unique_hru_ids ->
  in_vars (tvar_of v) self = true ->
  (day < numdays self)%nat ->
  nth_error (gdf_hru_id_nat self) i = Some index_i ->
  exists d_flt_v row x,
    day_slice self (tvar_of v) day = Ok d_flt_v
    /\ unit_value unique_hru_ids d_flt_v v index_i = Ok x
    /\ nth_error (pv_get v (np self')) day = Some row
    /\ nth_error row i = Some x.
Proof.
  intros H Hg Hv Hday Hi.
  destruct (run_weights_Ok _ _ H) as (g & np' & Hg' & Hl & ->).
  rewrite Hg in Hg'. injection Hg' as <-. simpl.
  destruct (day_loop_Ok _ _ _ _ _ Hl v) as (_ & _ & _ & Hb).
  destruct (Hb Hv (seq_NoDup _ _)) as [_ Hin].
  destruct (Hin day) as (row & Hrow & _ & flt & Hs & Hu).
  - apply in_seq. lia.
  - rewrite pv_get_const, repeat_length. exact Hday.
  - destruct (Hu i index_i Hi) as (x & Hx & Hri).
    exists flt, row, x. auto.
Qed.

Lemma run_weights_entry_witness :
  exists self' d_flt_v row x,
    run_weights two_days_one_NaN = Ok self'
    /\ day_slice two_days_one_NaN "ppt" 1 = Ok d_flt_v
    /\ unit_value (GroupBy two_units_weights "hru_id_nat") d_flt_v Vppt 2
       = Ok x
    /\ nth_error (ppt (np self')) 1 = Some row
    /\ nth_error row 1 = Some x.
Proof.
  assert (H : exists s, run_weights two_days_one_NaN = Ok s)
    by (eexists; vm_compute; reflexivity).
  destruct H as [s Hs].
  destruct (run_weights_entry two_days_one_NaN s
              (GroupBy two_units_weights "hru_id_nat") Vppt 1 1 2 Hs
              eq_refl eq_refl (le_n 2) eq_refl)
    as (flt & row & x & H1 & H2 & H3 & H4).
  exists s, flt, row, x. auto.
Defined.

(** ** When [run_weights] returns and when it raises *)

Section defined.
Variables (self : FpoNHM) (unique_hru_ids : DataFrameGroupBy).

(** The unit has rows in the weights file, with the two columns that the
    loop reads. *)
Local Abbreviation group_readable index_i :=
  (exists rows w tgid,
      get_group unique_hru_ids index_i = Ok rows
      /\ getattr_values rows "w" = Ok w
      /\ getattr_values rows "grid_ids" = Ok tgid).

Lemma foldM_hru_var_defined (d_flt : pervar (list f8)) (tgid : column)
    (tw : list f8) (i : nat) (vs : list gmvar) :
  (forall v, in_vars (tvar_of v) self = true ->
             exists cells x,
               take (pv_get v d_flt) tgid = Ok cells
               /\ getaverage (convert (variable_offset v) cells) tw = Ok x) ->
  forall d, exists d', foldM (hru_var self tgid tw d_flt i) vs d = Ok d'.
Proof.
  intros H. induction vs as [|u vs IH]; simpl; intros d.
  - exists d. reflexivity.
  - unfold hru_var at 1. destruct (in_vars (tvar_of u) self) eqn:Hu.
    + destruct (H u Hu) as (cells & x & -> & Hx). simpl. rewrite Hx. simpl.
      apply IH.
    + simpl. apply IH.
Qed.

Lemma hru_body_defined (d_flt : pervar (list f8)) (i : nat) (index_i : Z)
    (d : pervar (list f8)) :
  group_readable index_i ->
  (forall v, in_vars (tvar_of v) self = true ->
             exists x,
               unit_value unique_hru_ids (pv_get v d_flt) v index_i = Ok x) ->
  exists d', hru_body self unique_hru_ids d_flt i index_i d = Ok d'.
Proof.
  intros (rows & w & tgid & Hg & Hw & Ht) H.
  rewrite hru_body_table. unfold hru_body_by_table.
  rewrite Hg. cbn [bind]. rewrite Hw. cbn [bind]. rewrite Ht. cbn [bind].
  cbv zeta. apply foldM_hru_var_defined. intros v Hv.
  destruct (H v Hv) as [x Hx]. unfold unit_value in Hx.
  rewrite Hg in Hx. simpl in Hx. rewrite Hw in Hx. simpl in Hx.
  rewrite Ht in Hx. simpl in Hx.
  destruct (take (pv_get v d_flt) tgid) as [cells|]; [|discriminate Hx].
  exists cells, x. split; [reflexivity|exact Hx].
Qed.

Lemma hru_loop_defined (d_flt : pervar (list f8)) (index : list Z) :
  (forall index_i, In index_i index -> group_readable index_i) ->
  (forall index_i v,
      In index_i index -> in_vars (tvar_of v) self = true ->
      exists x, unit_value unique_hru_ids (pv_get v d_flt) v index_i = Ok x) ->
  forall i0 d,
    exists d', hru_loop self unique_hru_ids d_flt i0 index d = Ok d'.
Proof.
  induction index as [|k index IH]; simpl; intros Hg Hu i0 d.
  - exists d. reflexivity.
  - destruct (hru_body_defined d_flt i0 k d) as [d1 ->].
    + apply Hg. left. reflexivity.
    + intros v Hv. apply Hu; [left; reflexivity|exact Hv].
    + simpl. apply IH.
      * intros index_i Hin. apply Hg. right. exact Hin.
      * intros index_i v Hin Hv. apply Hu; [right; exact Hin|exact Hv].
Qed.

Lemma day_init_defined (v : gmvar) (day : nat) :
  (in_vars (tvar_of v) self = true ->
   exists d_flt_v, day_slice self (tvar_of v) day = Ok d_flt_v) ->
  exists p, day_init self (tvar_of v) day = Ok p.
Proof.
  intros H. unfold day_init. destruct (in_vars (tvar_of v) self).
  - destruct (H eq_refl) as [flt ->]. simpl. eexists. reflexivity.
  - eexists. reflexivity.
Qed.

(** The day can be processed: its grids are there, and every unit can be
    aggregated over them. *)
Local Abbreviation day_readable day :=
  (forall v, in_vars (tvar_of v) self = true ->
             exists d_flt_v,
               day_slice self (tvar_of v) day = Ok d_flt_v
               /\ forall index_i,
                    In index_i (gdf_hru_id_nat self) ->
                    exists x,
                      unit_value unique_hru_ids d_flt_v v index_i = Ok x).

Lemma day_body_defined (day : nat) (np : pervar (list (list f8))) :
  (forall index_i, In index_i (gdf_hru_id_nat self) ->
                   group_readable index_i) ->
  day_readable day ->
  exists np',
    day_body self unique_hru_ids (gdf_hru_id_nat self) day np = Ok np'.
Proof.
  intros Hg Hd.
  assert (Hi : forall v, exists p, day_init self (tvar_of v) day = Ok p).
  { intros v. apply day_init_defined. intros Hv.
    destruct (Hd v Hv) as (flt & Hs & _). exists flt. exact Hs. }
  unfold day_body.
  destruct (Hi Vtmax) as [i1 E1]. destruct (Hi Vtmin) as [i2 E2].
  destruct (Hi Vppt) as [i3 E3]. destruct (Hi Vrhmax) as [i4 E4].
  destruct (Hi Vrhmin) as [i5 E5]. destruct (Hi Vws) as [i6 E6].
  destruct (Hi Vsrad) as [i7 E7].
  cbn [tvar_of] in E1, E2, E3, E4, E5, E6, E7.
  rewrite E1, E2, E3, E4, E5, E6, E7. cbn [bind]. cbv zeta.
  set (inits := PerVar i1 i2 i3 i4 i5 i6 i7).
  change (PerVar (fst i1) (fst i2) (fst i3) (fst i4) (fst i5) (fst i6) (fst i7))
    with (pv_map fst inits).
  change (PerVar (snd i1) (snd i2) (snd i3) (snd i4) (snd i5) (snd i6) (snd i7))
    with (pv_map snd inits).
  assert (Hin : forall u, day_init self (tvar_of u) day = Ok (pv_get u inits))
    by (intros []; assumption).
  destruct (hru_loop_defined (pv_map snd inits) (gdf_hru_id_nat self) Hg)
    with (i0 := 0%nat) (d := pv_map fst inits) as [d' ->].
  - intros index_i v Hk Hv. rewrite pv_get_map.
    destruct (Hd v Hv) as (flt & Hs & Hu).
    destruct (day_init_Ok _ _ _ _ (Hin v)) as [Hf|(_ & flt' & Hs' & ->)];
      [congruence|].
    simpl. replace flt' with flt by congruence. apply Hu. exact Hk.
  - cbn [bind]. eexists. reflexivity.
Qed.

Lemma day_loop_defined (days : list nat) :
  (forall index_i, In index_i (gdf_hru_id_nat self) ->
                   group_readable index_i) ->
  (forall day, In day days -> day_readable day) ->
  forall np,
    exists np',
      day_loop self unique_hru_ids (gdf_hru_id_nat self) days np = Ok np'.
Proof.
  intros Hg. induction days as [|day days IH]; simpl; intros Hd np.
  - exists np. reflexivity.
  - destruct (day_body_defined day np Hg) as [np1 ->].
    + apply Hd. left. reflexivity.
    + simpl. apply IH. intros day' Hin. apply Hd. right. exact Hin.
Qed.
End defined.

Lemma weight_table_obj (wght_uofi : DataFrame) (g : DataFrameGroupBy) :
  weight_table wght_uofi = Ok g -> obj g = wght_uofi.
Proof.
  unfold weight_table.
  destruct (nth_error (columns wght_uofi) 1); [|discriminate].
  intros H. injection H as <-. reflexivity.
Qed.

Lemma group_readable_wf (g : DataFrameGroupBy) (wcol gcol : column)
    (index_i : Z) :
  lookup_col "w" (obj g) = Some wcol ->
  lookup_col "grid_ids" (obj g) = Some gcol ->
  has_group g index_i = true ->
  exists rows w tgid,
    get_group g index_i = Ok rows
    /\ getattr_values rows "w" = Ok w
    /\ getattr_values rows "grid_ids" = Ok tgid.
Proof.
  intros Hw Hl Hg. unfold get_group. rewrite Hg.
  eexists. eexists. eexists. split; [reflexivity|].
  unfold getattr_values. rewrite !lookup_col_select, Hw, Hl. simpl.
  split; reflexivity.
Qed.

(** X18: A run over a sound input returns: when the weights file has at least
    two columns, all of the same number of rows, among them [w] and an
    integer column [grid_ids]; every target unit has rows in it; and for
    every variable asked for and every day below [numdays] the grid was
    retrieved and is large enough for every cell index of the file; then
    [run_weights] raises nothing. *)
Theorem run_weights_defined (self : FpoNHM) (unique_hru_ids : DataFrameGroupBy)
    (n : nat) (wcol : column) (l : list Z) :
  weight_table (wghts_file self) = Ok unique_hru_ids ->
  frame_rows (wghts_file self) n ->
  lookup_col "w" (wghts_file self) = Some wcol ->
  lookup_col "grid_ids" (wghts_file self) = Some (IntCol l) ->
  (forall index_i, In index_i (gdf_hru_id_nat self) ->
                   has_group unique_hru_ids index_i = true) ->
  (forall v day,
      in_vars (tvar_of v) self = true -> (day < numdays self)%nat ->
      exists d_flt_v,
        day_slice self (tvar_of v) day = Ok d_flt_v
        /\ Forall (in_bounds (length d_flt_v)) l) ->
  exists self', run_weights self = Ok self'.
Proof.
  intros Hg Hf Hw Hl Hgroups Hdays.
  pose proof (weight_table_obj _ _ Hg) as Hobj.
  rewrite <- Hobj in Hf, Hw, Hl.
  unfold run_weights. rewrite Hg. simpl.
  destruct (day_loop_defined self unique_hru_ids (seq 0 (numdays self)))
    with (np := pv_const (repeat (zeros (num_hru self)) (numdays self)))
    as [np' ->].
  - intros index_i Hin.
    exact (group_readable_wf _ _ _ _ Hw Hl (Hgroups _ Hin)).
  - intros day Hday v Hv. apply in_seq in Hday.
    destruct (Hdays v day Hv) as (flt & Hs & Hb); [lia|].
    exists flt. split; [exact Hs|]. intros index_i Hin.
    exact (unit_value_wf _ _ _ _ _ v _ Hf Hw Hl Hb (Hgroups _ Hin)).
  - simpl. eexists. reflexivity.
Qed.

Lemma run_weights_defined_witness :
  exists self', run_weights two_days_one_NaN = Ok self'.
Proof.
  apply (run_weights_defined two_days_one_NaN
           (GroupBy two_units_weights "hru_id_nat") 2
           (FloatCol [of_Z 1; of_Z 1]) [0%Z; 1%Z]).
  - reflexivity.
  - repeat constructor.
  - reflexivity.
  - reflexivity.
  - intros index_i [<-|[<-|[]]]; reflexivity.
  - intros v [|[|day]] Hv Hday.
    + destruct v; try discriminate Hv.
      exists [of_Z 1; NaN]. split; [reflexivity|].
      repeat constructor; unfold in_bounds; simpl; lia.
    + destruct v; try discriminate Hv.
      exists [of_Z 3; of_Z 4]. split; [reflexivity|].
      repeat constructor; unfold in_bounds; simpl; lia.
    + simpl in Hday. lia.
Defined.

Lemma day_init_raises (self : FpoNHM) (tvar : string) (day : nat) :
  in_vars tvar self = true -> raises (day_slice self tvar day) ->
  raises (day_init self tvar day).
Proof.
  intros Hv H. unfold day_init. rewrite Hv. apply bind_raises. exact H.
Qed.

Lemma day_body_raises (self : FpoNHM) (unique_hru_ids : DataFrameGroupBy)
    (index : list Z) (v : gmvar) (day : nat) (np : pervar (list (list f8))) :
  in_vars (tvar_of v) self = true ->
  raises (day_slice self (tvar_of v) day) ->
  raises (day_body self unique_hru_ids index day np).
Proof.
  intros Hv H. pose proof (day_init_raises _ _ _ Hv H) as Hi.
  unfold day_body. destruct v; cbn [tvar_of] in Hi.
  - apply bind_raises; exact Hi.
  - do 1 (apply bind_raises_k; intros ?). apply bind_raises; exact Hi.
  - do 2 (apply bind_raises_k; intros ?). apply bind_raises; exact Hi.
  - do 3 (apply bind_raises_k; intros ?). apply bind_raises; exact Hi.
  - do 4 (apply bind_raises_k; intros ?). apply bind_raises; exact Hi.
  - do 5 (apply bind_raises_k; intros ?). apply bind_raises; exact Hi.
  - do 6 (apply bind_raises_k; intros ?). apply bind_raises; exact Hi.
Qed.

Lemma day_loop_raises (self : FpoNHM) (unique_hru_ids : DataFrameGroupBy)
    (index : list Z) (day : nat) (days : list nat) :
  In day days ->
  (forall np, raises (day_body self unique_hru_ids index day np)) ->
  forall np, raises (day_loop self unique_hru_ids index days np).
Proof.
  intros Hin H. induction days as [|day0 days IH]; simpl; [contradiction|].
  intros np. destruct Hin as [->|Hin].
  - apply bind_raises. apply H.
  - apply bind_raises_k. intros np1. apply IH. exact Hin.
Qed.

(** X19: A run needs, for every variable asked for, the grid of each of its
    [numdays] days: if for one of them the variable is not in the
    retrieved dataset, or the dataset holds no more than [day] days of it,
    the day slice raises ([KeyError] and [IndexError]) and the run ends with
    an exception. *)
Theorem run_weights_needs_every_grid (self : FpoNHM) (v : gmvar) (day : nat)
    (name : string) :
  in_vars (tvar_of v) self = true ->
  (day < numdays self)%nat ->
  dict_getitem gmss_vars (tvar_of v) = Ok name ->
  (ds_getitem (ds self) name = Raise KeyError ->
   day_slice self (tvar_of v) day = Raise KeyError
   /\ raises (run_weights self))
  /\ (forall values,
         ds_getitem (ds self) name = Ok values ->
         (length values <= day)%nat ->
         day_slice self (tvar_of v) day = Raise IndexError
         /\ raises (run_weights self)).
Proof.
  intros Hv Hday Hn.
  assert (Hrun : raises (day_slice self (tvar_of v) day) ->
                 raises (run_weights self)).
  { intros H. unfold run_weights. apply bind_raises_k. intros g.
    apply bind_raises. apply (day_loop_raises _ _ _ day).
    - apply in_seq. lia.
    - intros np0. exact (day_body_raises _ _ _ v _ _ Hv H). }
  split.
  - intros Hk.
    assert (E : day_slice self (tvar_of v) day = Raise KeyError).
    { unfold day_slice. rewrite Hn. simpl. rewrite Hk. reflexivity. }
    split; [exact E|]. apply Hrun. rewrite E. exists KeyError. reflexivity.
  - intros values Hk Hlen.
    assert (E : day_slice self (tvar_of v) day = Raise IndexError).
    { unfold day_slice. rewrite Hn. simpl. rewrite Hk. simpl.
      apply nth_error_None in Hlen. rewrite Hlen. reflexivity. }
    split; [exact E|]. apply Hrun. rewrite E. exists IndexError. reflexivity.
Qed.

Lemma run_weights_needs_every_grid_witness :
  in_vars (tvar_of Vppt) (setnumdays one_day_asked 3) = true
  /\ (2 < numdays (setnumdays one_day_asked 3))%nat
  /\ day_slice (setnumdays one_day_asked 3) "ppt" 2 = Raise IndexError
  /\ raises (run_weights (setnumdays one_day_asked 3)).
Proof.
  assert (Hd : (2 < numdays (setnumdays one_day_asked 3))%nat)
    by (simpl; lia).
  split; [reflexivity|]. split; [exact Hd|].
  apply (proj2 (run_weights_needs_every_grid (setnumdays one_day_asked 3)
                  Vppt 2 "precipitation_amount" eq_refl Hd eq_refl)
           [ [[of_Z 1; of_Z 2]]; [[of_Z 3; of_Z 4]] ]).
  - reflexivity.
  - simpl. lia.
Defined.

Lemma pv_ext {A : Type} (p q : pervar A) :
  (forall v, pv_get v p = pv_get v q) -> p = q.
Proof.
  intros H. destruct p, q.
  pose proof (H Vtmax). pose proof (H Vtmin). pose proof (H Vppt).
  pose proof (H Vrhmax). pose proof (H Vrhmin). pose proof (H Vws).
  pose proof (H Vsrad). simpl in *. congruence.
Qed.

(** X20: A run that has nothing to aggregate.  With [numdays] zero it returns
    empty arrays as soon as the weight table can be built, looking at no
    grid and no unit.  With no known variable asked for, it still looks up
    the group of every unit and its two columns on each day, reads no grid
    at all, and returns the arrays all zero. *)
Theorem run_weights_nothing_to_do (self : FpoNHM)
    (unique_hru_ids : DataFrameGroupBy) :
  weight_table (wghts_file self) = Ok unique_hru_ids ->
  (numdays self = 0%nat -> run_weights self = Ok (with_np (pv_const []) self))
  /\ ((forall v, in_vars (tvar_of v) self = false) ->
      (forall index_i,
          In index_i (gdf_hru_id_nat self) ->
          exists rows w tgid,
            get_group unique_hru_ids index_i = Ok rows
            /\ getattr_values rows "w" = Ok w
            /\ getattr_values rows "grid_ids" = Ok tgid) ->
      run_weights self
      = Ok (with_np (pv_const (repeat (zeros (num_hru self)) (numdays self)))
              self)).
Proof.
  intros Hg. split.
  - intros Hn. unfold run_weights. rewrite Hg, Hn. reflexivity.
  - intros Hv Hgroups. unfold run_weights. rewrite Hg. simpl.
    destruct (day_loop_defined self unique_hru_ids (seq 0 (numdays self))
                Hgroups)
      with (np := pv_const (repeat (zeros (num_hru self)) (numdays self)))
      as [np' Hl].
    + intros day _ v Hc. rewrite Hv in Hc. discriminate Hc.
    + rewrite Hl. simpl. do 2 f_equal. apply pv_ext. intros v.
      destruct (day_loop_Ok _ _ _ _ _ Hl v) as (_ & Ha & _).
      apply Ha. apply Hv.
Qed.

Lemma run_weights_nothing_to_do_witness :
  weight_table (wghts_file (setnumdays unit_without_weights 0))
  = Ok (GroupBy two_units_weights "hru_id_nat")
  /\ numdays (setnumdays unit_without_weights 0) = 0%nat
  /\ run_weights (setnumdays unit_without_weights 0)
     = Ok (with_np (pv_const []) (setnumdays unit_without_weights 0)).
Proof.
  split; [reflexivity|]. split; [reflexivity|].
  exact (proj1 (run_weights_nothing_to_do
                  (setnumdays unit_without_weights 0)
                  (GroupBy two_units_weights "hru_id_nat") eq_refl) eq_refl).
Defined.

(** ** The list of variables *)

Section same_variables.
Variables (self : FpoNHM) (ivars : list string).
Hypothesis Hvars :
  forall v, in_vars (tvar_of v) (with_vars ivars self)
            = in_vars (tvar_of v) self.

Lemma hru_body_vars unique_hru_ids d_flt i index_i d :
  hru_body (with_vars ivars self) unique_hru_ids d_flt i index_i d
  = hru_body self unique_hru_ids d_flt i index_i d.
Proof.
  unfold hru_body.
  rewrite (Hvars Vtmax : in_vars "tmax" _ = _).
  rewrite (Hvars Vtmin : in_vars "tmin" _ = _).
  rewrite (Hvars Vppt : in_vars "ppt" _ = _).
  rewrite (Hvars Vrhmax : in_vars "rhmax" _ = _).
  rewrite (Hvars Vrhmin : in_vars "rhmin" _ = _).
  rewrite (Hvars Vws : in_vars "ws" _ = _).
  rewrite (Hvars Vsrad : in_vars "srad" _ = _).
  cbn [tvar_of]. reflexivity.
Qed.

Lemma hru_loop_vars unique_hru_ids d_flt index :
  forall i d,
    hru_loop (with_vars ivars self) unique_hru_ids d_flt i index d
    = hru_loop self unique_hru_ids d_flt i index d.
Proof.
  induction index as [|k index IH]; simpl; intros i d; [reflexivity|].
  rewrite hru_body_vars.
  destruct (hru_body self unique_hru_ids d_flt i k d); simpl;
    [apply IH|reflexivity].
Qed.

Lemma day_init_vars (v : gmvar) (day : nat) :
  day_init (with_vars ivars self) (tvar_of v) day
  = day_init self (tvar_of v) day.
Proof. unfold day_init. rewrite Hvars. reflexivity. Qed.

Lemma day_store_vars (v : gmvar) (day : nat) np_v d_v :
  day_store (with_vars ivars self) (tvar_of v) day np_v d_v
  = day_store self (tvar_of v) day np_v d_v.
Proof. unfold day_store. rewrite Hvars. reflexivity. Qed.

Lemma day_body_vars unique_hru_ids index day np :
  day_body (with_vars ivars self) unique_hru_ids index day np
  = day_body self unique_hru_ids index day np.
Proof.
  unfold day_body.
  rewrite (day_init_vars Vtmax day : day_init _ "tmax" _ = _).
  rewrite (day_init_vars Vtmin day : day_init _ "tmin" _ = _).
  rewrite (day_init_vars Vppt day : day_init _ "ppt" _ = _).
  rewrite (day_init_vars Vrhmax day : day_init _ "rhmax" _ = _).
  rewrite (day_init_vars Vrhmin day : day_init _ "rhmin" _ = _).
  rewrite (day_init_vars Vws day : day_init _ "ws" _ = _).
  rewrite (day_init_vars Vsrad day : day_init _ "srad" _ = _).
  cbn [tvar_of].
  destruct (day_init self "tmax" day) as [i1|]; [|reflexivity].
  destruct (day_init self "tmin" day) as [i2|]; [|reflexivity].
  destruct (day_init self "ppt" day) as [i3|]; [|reflexivity].
  destruct (day_init self "rhmax" day) as [i4|]; [|reflexivity].
  destruct (day_init self "rhmin" day) as [i5|]; [|reflexivity].
  destruct (day_init self "ws" day) as [i6|]; [|reflexivity].
  destruct (day_init self "srad" day) as [i7|]; [|reflexivity].
  cbn [bind]. cbv zeta. rewrite hru_loop_vars.
  destruct (hru_loop self _ _ _ _ _) as [d'|]; [|reflexivity].
  cbn [bind].
  rewrite (day_store_vars Vtmax : forall a b c, day_store _ "tmax" a b c = _).
  rewrite (day_store_vars Vtmin : forall a b c, day_store _ "tmin" a b c = _).
  rewrite (day_store_vars Vppt : forall a b c, day_store _ "ppt" a b c = _).
  rewrite (day_store_vars Vrhmax : forall a b c, day_store _ "rhmax" a b c = _).
  rewrite (day_store_vars Vrhmin : forall a b c, day_store _ "rhmin" a b c = _).
  rewrite (day_store_vars Vws : forall a b c, day_store _ "ws" a b c = _).
  rewrite (day_store_vars Vsrad : forall a b c, day_store _ "srad" a b c = _).
  cbn [tvar_of]. reflexivity.
Qed.

Lemma day_loop_vars unique_hru_ids index days :
  forall np,
    day_loop (with_vars ivars self) unique_hru_ids index days np
    = day_loop self unique_hru_ids index days np.
Proof.
  induction days as [|day days IH]; simpl; intros np; [reflexivity|].
  rewrite day_body_vars.
  destruct (day_body self unique_hru_ids index day np); simpl;
    [apply IH|reflexivity].
Qed.

Lemma run_weights_vars :
  run_weights (with_vars ivars self)
  = (self' <- run_weights self ;; Ok (with_vars ivars self')).
Proof.
  unfold run_weights. cbn [wghts_file with_vars].
  destruct (weight_table (wghts_file self)) as [g|]; [|reflexivity].
  cbn [bind]. cbv zeta.
  change (gdf_hru_id_nat (with_vars ivars self)) with (gdf_hru_id_nat self).
  change (numdays (with_vars ivars self)) with (numdays self).
  change (num_hru (with_vars ivars self)) with (num_hru self).
  rewrite day_loop_vars.
  destruct (day_loop self g _ _ _) as [np'|]; reflexivity.
Qed.
End same_variables.

(** X21: The aggregation looks at the list of variables only to see which of
    its seven names are in it: another list with the same of the seven
    names, in any order, with repetitions or with names it does not know,
    gives the same arrays, and the same exception if there is one. *)
Theorem run_weights_variable_names (self : FpoNHM) (ivars : list string) :
  (forall v, in_vars (tvar_of v) (with_vars ivars self)
             = in_vars (tvar_of v) self) ->
  run_weights (with_vars ivars self)
  = (self' <- run_weights self ;; Ok (with_vars ivars self')).
Proof. exact (run_weights_vars self ivars). Qed.

Lemma run_weights_variable_names_witness :
  run_weights (with_vars ["pet"; "ppt"; "ppt"] two_days_one_NaN)
  = (self' <- run_weights two_days_one_NaN ;;
     Ok (with_vars ["pet"; "ppt"; "ppt"] self')).
Proof.
  apply run_weights_variable_names. intros []; reflexivity.
Defined.

(** ** [finalize] after [run_weights] *)

Lemma in_vars_In (tvar : string) (self : FpoNHM) :
  In tvar (vars self) -> in_vars tvar self = true.
Proof.
  intros H. unfold in_vars. apply existsb_exists. exists tvar.
  split; [exact H|apply String.eqb_refl].
Qed.

Lemma finalize_var_In (self : FpoNHM) (var : string) (nv : ncvar) :
  In nv (finalize_var self var) ->
  exists v,
    var = tvar_of v
    /\ nv = mkNcVar (nc_name v) (long_name nv) (units nv) (standard_name nv)
              default_fillvals_f8 (pv_get v (np self)).
Proof.
  unfold finalize_var.
  destruct (String.eqb var "tmax") eqn:E1;
    [apply String.eqb_eq in E1; intros [<-|[]]; exists Vtmax; auto|].
  destruct (String.eqb var "tmin") eqn:E2;
    [apply String.eqb_eq in E2; intros [<-|[]]; exists Vtmin; auto|].
  destruct (String.eqb var "ppt") eqn:E3;
    [apply String.eqb_eq in E3; intros [<-|[]]; exists Vppt; auto|].
  destruct (String.eqb var "rhmax") eqn:E4;
    [apply String.eqb_eq in E4; intros [<-|[]]; exists Vrhmax; auto|].
  destruct (String.eqb var "rhmin") eqn:E5;
    [apply String.eqb_eq in E5; intros [<-|[]]; exists Vrhmin; auto|].
  destruct (String.eqb var "ws") eqn:E6;
    [apply String.eqb_eq in E6; intros [<-|[]]; exists Vws; auto|].
  destruct (String.eqb var "srad") eqn:E7;
    [apply String.eqb_eq in E7; intros [<-|[]]; exists Vsrad; auto|].
  intros [].
Qed.

(** X22: What [finalize] writes after a run that succeeded.  Each climate
    variable of the output is the array of a variable that was asked for,
    never one of the arrays left at zero, written under the name of the
    variable ([prcp] for ppt); it has one row for each day and one value
    for each target unit; and the fill value it declares is the value that
    [getaverage] returns for a unit whose weights sum to zero. *)
Theorem finalize_after_run (self self' : FpoNHM) (nv : ncvar) :
  run_weights self = Ok self' ->
  In nv (finalize self') ->
  fill_value nv = default_fillvals_f8
  /\ length (data nv) = numdays self
  /\ Forall (fun row => length row = num_hru self) (data nv)
  /\ exists v,
       in_vars (tvar_of v) self = true
       /\ varname nv = nc_name v
       /\ data nv = pv_get v (np self').
Proof.
  intros Hrun Hin.
  destruct (run_weights_arrays _ _ Hrun) as [Hself Hshape].
  unfold finalize in Hin. apply in_flat_map in Hin.
  destruct Hin as (var & Hvar & Hnv).
  destruct (finalize_var_In _ _ _ Hnv) as (v & -> & Heq).
  destruct (Hshape v) as (Hlen & Hall & _).
  rewrite Heq. simpl. split; [reflexivity|]. split; [exact Hlen|].
  split; [exact Hall|].
  exists v. split; [|split; reflexivity].
  apply in_vars_In. rewrite Hself in Hvar. exact Hvar.
Qed.

Lemma finalize_after_run_witness :
  exists self' nv,
    run_weights freezing_day = Ok self'
    /\ In nv (finalize self')
    /\ varname nv = "tmin"
    /\ fill_value nv = default_fillvals_f8
    /\ length (data nv) = numdays freezing_day.
Proof.
  assert (H : exists s, run_weights freezing_day = Ok s)
    by (eexists; vm_compute; reflexivity).
  destruct H as [s Hs].
  assert (Hin : In (mkNcVar "tmin" "Minimum daily air temperature"
                      "degree_Celsius" "minimum_daily_air_temperature"
                      default_fillvals_f8 (tmin (np s)))
                  (finalize s)).
  { destruct (run_weights_arrays _ _ Hs) as [-> _].
    right. left. reflexivity. }
  destruct (finalize_after_run _ _ _ Hs Hin) as (Hf & Hl & _).
  eexists s, _. split; [exact Hs|]. split; [exact Hin|].
  split; [reflexivity|]. split; [exact Hf|exact Hl].
Defined.

(** ** [get_gm_url] *)

Lemma gm_dataset_gmss_vars (dataset : string) :
  match dict_getitem gmss_vars dataset with
  | Ok name => fst (gm_dataset dataset) = Some name
               /\ snd (gm_dataset dataset) <> None
  | Raise _ => gm_dataset dataset = (None, None)
  end.
Proof.
  unfold gm_dataset, gmss_vars, dict_getitem.
  rewrite (String.eqb_sym "tmax"), (String.eqb_sym "tmin"),
    (String.eqb_sym "ppt"), (String.eqb_sym "rhmax"),
    (String.eqb_sym "rhmin"), (String.eqb_sym "ws"),
    (String.eqb_sym "srad").
  destruct (String.eqb dataset "tmax"); [split; [reflexivity|discriminate]|].
  destruct (String.eqb dataset "tmin"); [split; [reflexivity|discriminate]|].
  destruct (String.eqb dataset "ppt"); [split; [reflexivity|discriminate]|].
  destruct (String.eqb dataset "rhmax"); [split; [reflexivity|discriminate]|].
  destruct (String.eqb dataset "rhmin"); [split; [reflexivity|discriminate]|].
  destruct (String.eqb dataset "ws"); [split; [reflexivity|discriminate]|].
  destruct (String.eqb dataset "srad"); [split; [reflexivity|discriminate]|].
  reflexivity.
Qed.

(** X23: The variable that [get_gm_url] asks the service for is the one that
    [run_weights] will look up in the retrieved dataset: for a dataset that
    is a key of [gmss_vars], the payload's [var] is the value of that key
    and there is a url; for any other dataset the call still returns, with
    [var] and the url both [None]. *)
Theorem get_gm_url_asks_for_gmss_vars (datetime : Type)
    (minus_days : datetime -> Z -> datetime) (strftime : datetime -> string)
    (type dataset : string) (numdays : option Z)
    (startdate enddate : option datetime) (ctype : string)
    (now_end now_start : datetime) (str_start_cf : string)
    (url : option string) (payload : list (string * option string)) :
  get_gm_url datetime minus_days strftime type dataset numdays startdate
    enddate ctype now_end now_start
  = GmTuple str_start_cf url payload ->
  match dict_getitem gmss_vars dataset with
  | Ok name => payload_get payload "var" = Some (Some name) /\ url <> None
  | Raise _ => payload_get payload "var" = Some None /\ url = None
  end.
Proof.
  unfold get_gm_url.
  destruct (gm_dates _ _ _ _ _ _ _ _ _) as [e|[[[s1 s2] s3]|]];
    try discriminate.
  - destruct (String.eqb ctype "GridMetSS"); [|discriminate].
    pose proof (gm_dataset_gmss_vars dataset) as H.
    destruct (gm_dataset dataset) as [dsvar u]. intros E.
    injection E as _ <- <-. simpl payload_get.
    destruct (dict_getitem gmss_vars dataset) as [name|].
    + simpl in H. destruct H as [-> Hu]. auto.
    + injection H as -> ->. auto.
  - destruct (String.eqb ctype "GridMetSS"); [|discriminate].
    destruct (gm_dataset dataset). discriminate.
Qed.

Lemma get_gm_url_asks_for_gmss_vars_witness :
  get_gm_url Z Z.sub (fun _ => "2020-01-01") "days" "srad" (Some 3%Z)
    None None "GridMetSS" 10%Z 10%Z
  = GmTuple "2020-01-01 00:00:00"
      (Some "http://thredds.northwestknowledge.net:8080/thredds/ncss/grid/agg_met_srad_1979_CurrentYear_CONUS.nc")
      (gm_payload (Some "daily_mean_shortwave_radiation_at_surface")
         "2020-01-01T00:00:00Z" "2020-01-01T00:00:00Z")
  /\ payload_get
       (gm_payload (Some "daily_mean_shortwave_radiation_at_surface")
          "2020-01-01T00:00:00Z" "2020-01-01T00:00:00Z") "var"
     = Some (Some "daily_mean_shortwave_radiation_at_surface").
Proof.
  assert (H : get_gm_url Z Z.sub (fun _ => "2020-01-01") "days" "srad"
                (Some 3%Z) None None "GridMetSS" 10%Z 10%Z
              = GmTuple "2020-01-01 00:00:00"
                  (Some "http://thredds.northwestknowledge.net:8080/thredds/ncss/grid/agg_met_srad_1979_CurrentYear_CONUS.nc")
                  (gm_payload
                     (Some "daily_mean_shortwave_radiation_at_surface")
                     "2020-01-01T00:00:00Z" "2020-01-01T00:00:00Z"))
    by reflexivity.
  split; [exact H|].
  exact (proj1 (get_gm_url_asks_for_gmss_vars _ _ _ _ _ _ _ _ _ _ _ _ _ _ H)).
Defined.

(** X24: When [get_gm_url] returns its tuple: only when [ctype] is
    ['GridMetSS'] and the dates that [type] needs are given, [numdays] for
    ['days'], both dates for ['date'].  Without them it raises, whatever
    [ctype] is: [TypeError] for ['days'] without [numdays],
    [AttributeError] for ['date'] without one of the dates.  With any other
    [type] it raises [UnboundLocalError] for ['GridMetSS'] and returns
    [None] for another [ctype]. *)
Theorem get_gm_url_returns (datetime : Type)
    (minus_days : datetime -> Z -> datetime) (strftime : datetime -> string)
    (type dataset : string) (numdays : option Z)
    (startdate enddate : option datetime) (ctype : string)
    (now_end now_start : datetime) :
  let r := get_gm_url datetime minus_days strftime type dataset numdays
             startdate enddate ctype now_end now_start in
  ((exists str_start_cf url payload, r = GmTuple str_start_cf url payload)
   -> ctype = "GridMetSS"
      /\ ((type = "days" /\ numdays <> None)
          \/ (type = "date" /\ startdate <> None /\ enddate <> None)))
  /\ (type = "days" -> numdays = None -> r = GmRaise GmTypeError)
  /\ (type = "date" -> startdate = None \/ enddate = None ->
      r = GmRaise GmAttributeError)
  /\ (type <> "days" -> type <> "date" ->
      r = if String.eqb ctype "GridMetSS" then GmRaise GmUnboundLocalError
          else GmNone).
Proof.
  cbv zeta. unfold get_gm_url, gm_dates. split; [|split; [|split]].
  - intros (a & b & c & H).
    destruct (String.eqb ctype "GridMetSS") eqn:Ec.
    + apply String.eqb_eq in Ec. split; [exact Ec|].
      destruct (String.eqb type "days") eqn:E1.
      * apply String.eqb_eq in E1. left. split; [exact E1|].
        destruct numdays; [discriminate|discriminate H].
      * destruct (String.eqb type "date") eqn:E2.
        { apply String.eqb_eq in E2. right. split; [exact E2|].
          destruct startdate, enddate; try discriminate H.
          split; discriminate. }
        { destruct (gm_dataset dataset). discriminate H. }
    + destruct (String.eqb type "days"); [destruct numdays|];
        try discriminate H.
      destruct (String.eqb type "date");
        [destruct startdate, enddate|]; discriminate H.
  - intros -> ->. reflexivity.
  - intros -> H. destruct startdate, enddate; try reflexivity.
    destruct H; discriminate.
  - intros H1 H2. apply String.eqb_neq in H1, H2. rewrite H1, H2.
    destruct (String.eqb ctype "GridMetSS"); [|reflexivity].
    destruct (gm_dataset dataset). reflexivity.
Qed.

Lemma get_gm_url_returns_witness :
  "day" <> "days" /\ "day" <> "date"
  /\ get_gm_url Z Z.sub (fun _ => "2020-01-01") "day" "tmax" (Some 3%Z)
       None None "GridMetSS" 10%Z 10%Z
     = GmRaise GmUnboundLocalError
  /\ get_gm_url Z Z.sub (fun _ => "2020-01-01") "day" "tmax" (Some 3%Z)
       None None "GridMet" 10%Z 10%Z
     = GmNone.
Proof.
  assert (H1 : "day" <> "days") by discriminate.
  assert (H2 : "day" <> "date") by discriminate.
  split; [exact H1|]. split; [exact H2|]. split.
  - exact (proj2 (proj2 (proj2
             (get_gm_url_returns Z Z.sub (fun _ => "2020-01-01") "day"
                "tmax" (Some 3%Z) None None "GridMetSS" 10%Z 10%Z)))
             H1 H2).
  - exact (proj2 (proj2 (proj2
             (get_gm_url_returns Z Z.sub (fun _ => "2020-01-01") "day"
                "tmax" (Some 3%Z) None None "GridMet" 10%Z 10%Z)))
             H1 H2).
Defined.
